(** * Shallow embedding of the outline, manifest and quiz parsing of
    [sushichef.py] (Microsoft Digital Literacy, English chef).

    Python strings are modelled as [string] (code points below 256, read as
    Latin-1); an lxml tree as the inductive [node] below; a possibly raising
    Python computation as [res], whose [Raise] constructor names the Python
    exception class. The file system, consulted by [os.path.exists], is a
    boolean predicate [path_exists] passed as an argument. *)

From Stdlib Require Import String Ascii List Bool Arith Lia.
From Stdlib Require Import Numbers.DecimalString.
From Stdlib Require Import Sorting.Sorted Sorting.Permutation.
Import ListNotations.
Open Scope list_scope.
Open Scope string_scope.

(** ** Python exceptions and the error monad *)

Inductive py_exc := IndexError | KeyError | TypeError | AttributeError.

Inductive res (A : Type) :=
| Ok (a : A)
| Raise (e : py_exc).
Arguments Ok {A} a.
Arguments Raise {A} e.

Definition bind {A B} (m : res A) (f : A -> res B) : res B :=
  match m with
  | Ok a => f a
  | Raise e => Raise e
  end.

Notation "x <- m ;; k" := (bind m (fun x => k))
  (at level 61, m at next level, right associativity).

(** [l[0]] on a Python list. *)
Definition index0 {A} (l : list A) : res A :=
  match l with
  | [] => Raise IndexError
  | a :: _ => Ok a
  end.

(** Runs a Python loop body over a list, concatenating what each iteration
    appends; the first exception aborts the loop. *)
Fixpoint concat_res {A B} (f : A -> res (list B)) (l : list A) : res (list B) :=
  match l with
  | [] => Ok []
  | a :: l' =>
      x <- f a ;;
      y <- concat_res f l' ;;
      Ok (x ++ y)%list
  end.

(** ** Python string operations *)

(** [str.isspace] on a Latin-1 code point. *)
Definition py_isspace (c : ascii) : bool :=
  let n := nat_of_ascii c in
  (((9 <=? n) && (n <=? 13)) || ((28 <=? n) && (n <=? 32))
  || (n =? 133) || (n =? 160))%nat.

Fixpoint lstrip (s : string) : string :=
  match s with
  | EmptyString => EmptyString
  | String c s' => if py_isspace c then lstrip s' else s
  end.

Fixpoint rstrip (s : string) : string :=
  match s with
  | EmptyString => EmptyString
  | String c s' =>
      let r := rstrip s' in
      if String.eqb r "" && py_isspace c then "" else String c r
  end.

(** [str.strip()] *)
Definition py_strip (s : string) : string := rstrip (lstrip s).

(** [str.endswith(suffix)] *)
Definition ends_with (suffix s : string) : bool :=
  let n := String.length s in
  let m := String.length suffix in
  (m <=? n)%nat && String.eqb (substring (n - m)%nat m s) suffix.

(** [str.replace(old, new)] for a non-empty [old]: occurrences are replaced
    left to right without overlap. [skip] counts the characters of the
    occurrence just replaced that are still to be dropped. *)
Fixpoint replace_aux (old new : string) (skip : nat) (s : string) : string :=
  match s with
  | EmptyString => EmptyString
  | String c s' =>
      match skip with
      | S k => replace_aux old new k s'
      | 0%nat =>
          if String.prefix old s
          then new ++ replace_aux old new (String.length old - 1)%nat s'
          else String c (replace_aux old new 0%nat s')
      end
  end.

Definition py_replace (old new s : string) : string := replace_aux old new 0%nat s.

(** Last occurrence of the character [c] in [s]: the text before and after it. *)
Fixpoint split_last (c : ascii) (s : string) : option (string * string) :=
  match s with
  | EmptyString => None
  | String x s' =>
      match split_last c s' with
      | Some (a, b) => Some (String x a, b)
      | None => if Ascii.eqb x c then Some ("", s') else None
      end
  end.

Fixpoint has_non_dot (s : string) : bool :=
  match s with
  | EmptyString => false
  | String c s' => negb (Ascii.eqb c ".") || has_non_dot s'
  end.

(** [posixpath.splitext]: the extension starts at the last dot of the base
    name, provided the base name has a character other than a dot before it. *)
Definition splitext (p : string) : string * string :=
  let '(dir, base) :=
    match split_last "/" p with
    | Some (d, b) => (d ++ "/", b)
    | None => ("", p)
    end in
  match split_last "." base with
  | Some (r, e) => if has_non_dot r then (dir ++ r, "." ++ e) else (p, "")
  | None => (p, "")
  end.

(** [os.path.basename] *)
Definition basename (p : string) : string :=
  match split_last "/" p with
  | Some (_, b) => b
  | None => p
  end.

(** ["{}".format(x)] of an optional string: [None] prints as [None]. *)
Definition py_str (o : option string) : string :=
  match o with
  | Some s => s
  | None => "None"
  end.

Definition nat_to_string (n : nat) : string :=
  NilEmpty.string_of_uint (Nat.to_uint n).

(** [pat in s] *)
Fixpoint contains (pat s : string) : bool :=
  match s with
  | EmptyString => String.prefix pat ""
  | String c s' => String.prefix pat s || contains pat s'
  end.

(** ** lxml trees

    Children of an element are all its child nodes: [iterchildren()] and
    [getchildren()] also yield comments and processing instructions, while
    [find]/[findall] by tag name only see elements. An element records its
    namespace URI ([""] for none), its local name, its attributes, and its
    [.text]. Tails are not modelled. *)

Set Warnings "-register-all".

Inductive node :=
| Element (ns : string) (local : string) (attrs : list (string * string))
    (text : option string) (kids : list node)
| Comment (content : string)
| PI (target : string) (content : string).

(** Induction with a hypothesis for every child. *)
Section node_ind'.
Variable P : node -> Prop.
Hypothesis HElement : forall ns local attrs text kids,
  Forall P kids -> P (Element ns local attrs text kids).
Hypothesis HComment : forall c, P (Comment c).
Hypothesis HPI : forall t c, P (PI t c).

Fixpoint node_ind' (n : node) : P n :=
  match n with
  | Element ns local attrs text kids =>
      HElement ns local attrs text kids
        ((fix go (l : list node) : Forall P l :=
            match l with
            | [] => Forall_nil P
            | k :: l' => Forall_cons k (node_ind' k) (go l')
            end) kids)
  | Comment c => HComment c
  | PI t c => HPI t c
  end.
End node_ind'.

(** [element.tag] when it is a string ([None] for comments and processing
    instructions, whose [tag] is a factory function). *)
Definition tag_of (n : node) : option string :=
  match n with
  | Element ns local _ _ _ =>
      Some (if String.eqb ns "" then local else "{" ++ ns ++ "}" ++ local)
  | _ => None
  end.

Fixpoint assoc (k : string) (l : list (string * string)) : option string :=
  match l with
  | [] => None
  | (k', v) :: l' => if String.eqb k k' then Some v else assoc k l'
  end.

(** [element.get(key)]; comments and processing instructions answer [None]. *)
Definition get (k : string) (n : node) : option string :=
  match n with
  | Element _ _ attrs _ _ => assoc k attrs
  | _ => None
  end.

(** [element.getchildren()] / [list(element.iterchildren())] *)
Definition children (n : node) : list node :=
  match n with
  | Element _ _ _ _ kids => kids
  | _ => []
  end.

(** [element.text] *)
Definition text_of (n : node) : option string :=
  match n with
  | Element _ _ _ t _ => t
  | Comment c => Some c
  | PI _ c => Some c
  end.

Definition has_tag (t : string) (n : node) : bool :=
  match tag_of n with
  | Some t' => String.eqb t' t
  | None => false
  end.

(** [element.findall(tag)] and [element.find(tag)] for a plain tag name. *)
Definition findall (t : string) (n : node) : list node :=
  filter (has_tag t) (children n).

Definition find (t : string) (n : node) : option node :=
  hd_error (findall t n).

(** ** [strip_ns_prefix]

    Every element of [descendant-or-self::*] with a non-empty namespace URI
    gets [element.tag = QName(element).localname]: lxml sets the node's name
    to the local name and, the new tag carrying no namespace, clears the
    node's namespace. Other nodes are untouched. *)
Fixpoint strip_ns_prefix (n : node) : node :=
  match n with
  | Element ns local attrs text kids =>
      Element (if String.eqb ns "" then ns else "") local attrs text
        (map strip_ns_prefix kids)
  | other => other
  end.

(** ** Output nodes (the fields of the ricecooker nodes the chef fills in) *)

Record question := {
  q_id : string;
  q_question : option string;
  q_answers : list (option string);
  q_correct : option string
}.

Record exercise := {
  ex_source_id : string;
  ex_title : string;
  ex_description : string;
  ex_questions : list question
}.

Record video := {
  v_title : option string;
  v_source_id : string;
  v_path : string;
  v_caption : string
}.

Inductive child :=
| CVideo (v : video)
| CExercise (e : exercise).

Record subtopic := {
  st_title : string;
  st_source_id : string;
  st_description : option string;
  st_children : list child
}.

Definition opt_eqb (a b : option string) : bool :=
  match a, b with
  | Some x, Some y => String.eqb x y
  | None, None => true
  | _, _ => false
  end.

(** [x or ""] for an optional string. *)
Definition or_empty (o : option string) : string :=
  match o with
  | Some s => s
  | None => ""
  end.

(** ** Quiz Reconstructor *)

(** [c.get("correct")] is truthy: present and non-empty. *)
Definition is_flagged (c : node) : bool :=
  match get "correct" c with
  | Some v => negb (String.eqb v "")
  | None => false
  end.

(** The body of the loop of [get_quiz_from_objective] for one [item]. *)
Definition quiz_item (objective item : node) : res (list question) :=
  if opt_eqb (get "type" item) (Some "choice") then
    match find "prompt" item with
    | None => Ok []
    | Some prompt =>
        let question_text := text_of prompt in
        let answers := map text_of (findall "choice" item) in
        correct <- index0 (map text_of (filter is_flagged (findall "choice" item))) ;;
        let name := or_empty (get "name" objective) in
        Ok [{| q_id := "question_" ++ py_replace " " "_" name ++ "_"
                       ++ py_str (get "id" item) ++ "_id";
               q_question := question_text;
               q_answers := answers;
               q_correct := correct |}]
    end
  else Ok [].

Definition get_quiz_from_objective (objective : node) : res (list question) :=
  concat_res (quiz_item objective) (findall "question" objective).

Definition get_exercise_node (idx : option string) (objectives : list node)
    (lesson : string) : res exercise :=
  objective <- index0 (filter (fun o => opt_eqb (get "id" o) idx) objectives) ;;
  questions <- get_quiz_from_objective objective ;;
  let name := or_empty (get "name" objective) in
  Ok {| ex_source_id := "questions_" ++ py_replace " " "_" name ++ "_id";
        ex_title := "Knowledge check: " ++ name;
        ex_description := "Knowledge check: " ++ lesson;
        ex_questions := questions |}.

(** ** Media Matcher *)

(** [tttl_from_mp4], the caption path of a video; [path_exists] stands for
    [os.path.exists]. *)
Definition tttl_from_mp4 (path_exists : string -> bool) (mp4_file : string)
    : string :=
  let file_path := py_replace "/Videos/" "/Captions/" mp4_file in
  let file_name := splitext file_path in
  let ttml_file := py_strip (fst file_name) ++ "_Video_cc.ttml" in
  if negb (path_exists ttml_file)
  then py_strip (fst file_name) ++ ".ttml"
  else ttml_file.

(** [[v for v in list_of_mp4s if v.endswith(video.get("fileName"))]]:
    [str.endswith(None)] raises [TypeError], once there is a path to test. *)
Definition matching_mp4s (list_of_mp4s : list string) (file_name : option string)
    : res (list string) :=
  match file_name with
  | Some frag => Ok (filter (ends_with frag) list_of_mp4s)
  | None =>
      match list_of_mp4s with
      | [] => Ok []
      | _ => Raise TypeError
      end
  end.

Fixpoint enumerate_from {A} (n : nat) (l : list A) : list (nat * A) :=
  match l with
  | [] => []
  | x :: l' => (n, x) :: enumerate_from (S n) l'
  end.

(** The body of [for idx, video in enumerate(videos)]. *)
Definition process_video (path_exists : string -> bool)
    (list_of_mp4s : list string) (level1 : node) (iv : nat * node)
    : res (list child) :=
  let '(idx, v) := iv in
  if has_tag "video" v then
    video_file_name <- matching_mp4s list_of_mp4s (get "fileName" v) ;;
    match video_file_name with
    | [] => Ok []
    | p :: _ =>
        let title :=
          if Nat.eqb idx 0 then get "name" level1
          else Some (py_str (get "name" level1) ++ "-" ++ nat_to_string idx
                     ++ " part") in
        Ok [CVideo {| v_title := title;
                      v_source_id := basename p ++ "_"
                                     ++ py_str (get "pageId" level1) ++ "_id";
                      v_path := p;
                      v_caption := tttl_from_mp4 path_exists p |}]
    end
  else Ok [].

(** ** Outline Walker *)

(** The body of [for level1 in levels1[1:]]. *)
Definition process_level1 (path_exists : string -> bool)
    (list_of_mp4s : list string) (objectives : list node) (level0_name : string)
    (level1 : node) : res (list child) :=
  let videos := children level1 in
  if opt_eqb (get "name" level1) (Some "Knowledge check") then
    ex <- get_exercise_node (get "objectives" level1) objectives level0_name ;;
    Ok [CExercise ex]
  else
    match videos with
    | [] => Ok []
    | _ => concat_res (process_video path_exists list_of_mp4s level1)
             (enumerate_from 0 videos)
    end.

Definition discarded : list string := ["Homepage"; "Print your certificate"].

(** The body of [for level0 in level0_elements]: the sub-topic it adds. *)
Definition walk_level0 (path_exists : string -> bool)
    (list_of_mp4s : list string) (objectives : list node) (level0 : node)
    : res (list subtopic) :=
  let level0_name := or_empty (get "name" level0) in
  if existsb (String.eqb level0_name) discarded then Ok []
  else
    let levels1 := children level0 in
    if Nat.leb (length levels1) 1 then Ok []
    else
      first <- index0 levels1 ;;
      d <- index0 (children first) ;;
      kids <- concat_res (process_level1 path_exists list_of_mp4s objectives
                            level0_name) (tl levels1) ;;
      Ok [{| st_title := level0_name;
             st_source_id := py_replace " " "_" level0_name ++ "_id";
             st_description := text_of d;
             st_children := kids |}].

(** The outline part of [get_course]: the sub-topics of the lesson topic,
    from the root [page] of [pages.xml]. *)
Definition walk_pages (path_exists : string -> bool) (list_of_mp4s : list string)
    (page : node) : res (list subtopic) :=
  let level0_elements := findall "level0" page in
  let objectives :=
    match find "objectives" page with
    | None => []
    | Some objectives_parent => children objectives_parent
    end in
  concat_res (walk_level0 path_exists list_of_mp4s objectives) level0_elements.

(** ** Manifest Reader *)

(** Values built by [xmltodict.parse]: [None], a string, a dict (in
    insertion order) or a list (for a repeated child tag). *)
Inductive xd :=
| XNone
| XStr (s : string)
| XDict (entries : list (string * xd))
| XList (items : list xd).

Fixpoint lookup (k : string) (es : list (string * xd)) : option xd :=
  match es with
  | [] => None
  | (k', v) :: es' => if String.eqb k k' then Some v else lookup k es'
  end.

(** xmltodict's [push_data]: a second value under a key turns it into a list. *)
Fixpoint push_data (es : list (string * xd)) (k : string) (v : xd)
    : list (string * xd) :=
  match es with
  | [] => [(k, v)]
  | (k', v0) :: es' =>
      if String.eqb k k'
      then (k', match v0 with
                | XList l => XList (l ++ [v])
                | _ => XList [v0; v]
                end) :: es'
      else (k', v0) :: push_data es' k v
  end.

(** [xmltodict.parse(etree.tostring(e))[tag]] of a tree on which
    [strip_ns_prefix] has run (keys are local names): attributes as ["@"]
    keys, child elements by tag, comments and processing instructions
    ignored, character data stripped and put under ["#text"] next to other
    keys, or alone as a string; an element with nothing in it is [None]. *)
Fixpoint to_xd (n : node) : xd :=
  match n with
  | Element _ _ attrs text kids =>
      let a := map (fun kv => ("@" ++ fst kv, XStr (snd kv))) attrs in
      let es := fold_left (fun es k =>
                   match k with
                   | Element _ local _ _ _ => push_data es local (to_xd k)
                   | _ => es
                   end) kids a in
      let data := py_strip (or_empty text) in
      match es with
      | [] => if String.eqb data "" then XNone else XStr data
      | _ => XDict (if String.eqb data "" then es else es ++ [("#text", XStr data)])
      end
  | _ => XNone
  end.

(** [d[k]] *)
Definition py_getitem (v : xd) (k : string) : res xd :=
  match v with
  | XDict es =>
      match lookup k es with
      | Some x => Ok x
      | None => Raise KeyError
      end
  | _ => Raise TypeError
  end.

(** [d.get(k, default)] *)
Definition py_dict_get (v : xd) (k : string) (default : xd) : res xd :=
  match v with
  | XDict es =>
      match lookup k es with
      | Some x => Ok x
      | None => Ok default
      end
  | _ => Raise AttributeError
  end.

(** [mt.find("lom/general") or etree.Element("general")] after
    [strip_ns_prefix(mt)]: an lxml element is truthy when it has children. *)
Definition general_section (mt : node) : node :=
  let mt' := strip_ns_prefix mt in
  let placeholder := Element "" "general" [] None [] in
  match hd_error (flat_map (findall "general") (findall "lom" mt')) with
  | Some g =>
      match children g with
      | [] => placeholder
      | _ => g
      end
  | None => placeholder
  end.

Definition general_dict (mt : node) : xd := to_xd (general_section mt).

(** Lines of [get_course] from [strip_ns_prefix(mt)] to [lesson_desc], from
    the [metadata] element [mt] of [imsmanifest.xml]: the lesson title and
    description ([XNone] for Python's [None]). *)
Definition read_manifest (mt : node) : res (xd * xd) :=
  let general := general_dict mt in
  t <- py_getitem general "title" ;;
  tl <- py_dict_get t "langstring" (XDict []) ;;
  lesson_title <- py_dict_get tl "#text" XNone ;;
  d <- py_getitem general "description" ;;
  dl <- py_dict_get d "langstring" (XDict []) ;;
  lesson_desc <- py_dict_get dl "#text" XNone ;;
  Ok (lesson_title, lesson_desc).

(** ** [make_request]

    The network is the function [attempt]: the outcome of the request sent
    after [i] failures. [LOGGER] calls are not modelled; [time.sleep] calls
    are recorded, in seconds. *)

Record response := {
  status_code : nat;
  resp_url : string;
  resp_text : string
}.

Inductive outcome :=
| ConnectionError        (** [ConnectionError] or [ReadTimeout] *)
| Response (r : response).

Record request_trace := {
  rt_result : option response;
  rt_attempts : nat;
  rt_sleeps : list nat
}.

Definition max_retries : nat := 5.

(** The [while True] loop from a given [retry_count]. It ends after at most
    [max_retries] iterations; [fuel] bounds it by that number. *)
Fixpoint request_loop (attempt : nat -> outcome) (retry_count fuel : nat)
    : option response * nat * list nat :=
  match fuel with
  | 0 => (None, 0, [])
  | S fuel' =>
      match attempt retry_count with
      | Response r => (Some r, 1, [])
      | ConnectionError =>
          let rc := S retry_count in
          if Nat.leb max_retries rc then (None, 1, [rc * 1])
          else
            let '(r, n, s) := request_loop attempt rc fuel' in
            (r, S n, rc * 1 :: s)
      end
  end%nat.

Definition make_request (attempt : nat -> outcome) : request_trace :=
  let '(r, n, s) := request_loop attempt 0 max_retries in
  {| rt_result :=
       match r with
       | Some resp => if Nat.eqb (status_code resp) 200 then Some resp else None
       | None => None
       end;
     rt_attempts := n;
     rt_sleeps := s |}.

(** ** [get_text], from the text BeautifulSoup extracts ([None] for no element) *)
Definition get_text (element : option string) : string :=
  match element with
  | None => ""
  | Some t =>
      py_strip (py_replace (String "010" "") " "
                  (py_replace (String "013" "") "" t))
  end.

(** ** [crawl], from the anchors of the [li] items it walks

    [li.find("a")] is [None] or an anchor with its text and [href]. A
    Python dict is an association list: assigning an existing key keeps its
    place and replaces its value. *)

Fixpoint dict_set {V} (d : list (string * V)) (k : string) (v : V)
    : list (string * V) :=
  match d with
  | [] => [(k, v)]
  | (k', v') :: d' =>
      if String.eqb k k' then (k', v) :: d' else (k', v') :: dict_set d' k v
  end.

Fixpoint dict_get {V} (k : string) (d : list (string * V)) : option V :=
  match d with
  | [] => None
  | (k', v) :: d' => if String.eqb k k' then Some v else dict_get k d'
  end.

Definition anchor : Type := option (string * option string).

(** [for li in list_of_lessons.find_all("li")]: the [lessons] dict. *)
Fixpoint crawl_lessons_from (lessons : list (string * option string))
    (lis : list anchor) : res (list (string * option string)) :=
  match lis with
  | [] => Ok lessons
  | None :: _ => Raise AttributeError
  | Some (txt, href) :: lis' => crawl_lessons_from (dict_set lessons txt href) lis'
  end.

Definition crawl_lessons (lis : list anchor) := crawl_lessons_from [] lis.

(** [for li in list_of_topics.find_all("li")]: the [zipped_videos] dict,
    without the transcript archives. *)
Fixpoint crawl_topics_from (topics : list (string * option string))
    (lis : list anchor) : res (list (string * option string)) :=
  match lis with
  | [] => Ok topics
  | None :: _ => Raise AttributeError
  | Some (txt, href) :: lis' =>
      if negb (contains "Transcript" txt)
      then crawl_topics_from (dict_set topics txt href) lis'
      else crawl_topics_from topics lis'
  end.

Definition crawl_topics (lis : list anchor) := crawl_topics_from [] lis.

(** ** [download_courses]

    The file system is the list of existing paths; a download is recorded as
    the (name, url) it fetched, and creates the file. [get_ok u] tells
    whether [requests.get(u, stream=True)] and the streaming of its body
    complete without raising; [requests.get(None)] raises ([MissingSchema]).
    [None] is a raised exception. *)

Definition zip_name (lesson : string) : string := "chefdata/" ++ lesson ++ ".zip".

Fixpoint download_loop (get_ok : string -> bool) (files : list string)
    (items : list (string * option string))
    : option (list string * list (string * option string)) :=
  match items with
  | [] => Some (files, [])
  | (lesson, url) :: items' =>
      let filename := zip_name lesson in
      if negb (existsb (String.eqb filename) files)
      then
        match url with
        | Some u =>
            if get_ok u then
              match download_loop get_ok (filename :: files) items' with
              | Some (fs, fetched) => Some (fs, (lesson, url) :: fetched)
              | None => None
              end
            else None
        | None => None
        end
      else download_loop get_ok files items'
  end.

(** Both loops; the fetches of the second loop are returned apart. *)
Definition download_courses (get_ok : string -> bool) (files : list string)
    (lessons zipped_videos : list (string * option string))
    : option (list string * list (string * option string) * list (string * option string)) :=
  match download_loop get_ok files lessons with
  | None => None
  | Some (files1, fetched_lessons) =>
      match download_loop get_ok files1 zipped_videos with
      | None => None
      | Some (files2, fetched_videos) => Some (files2, fetched_lessons, fetched_videos)
      end
  end.

(** ** [get_teacher_resources]

    The walked files are given with their joined path and [os.path.isfile];
    [existing] is the file system, [libreoffice] tells whether the converter
    is installed, and [converts f] whether it wrote the PDF of [f]. [None]
    is [sys.exit(1)]. *)

Record document := {
  doc_title : string;
  doc_source_id : string;
  doc_path : string
}.

Definition pdf_file_path (file_path : string) : string :=
  "chefdata/teacher_files/" ++ basename (fst (splitext file_path)) ++ ".pdf".

Fixpoint convert_loop (libreoffice : bool) (converts : string -> bool)
    (existing pdf_files : list string) (files : list (string * bool))
    : option (list string) :=
  match files with
  | [] => Some pdf_files
  | (file_path, is_file) :: files' =>
      let pdf := pdf_file_path file_path in
      let pdf_exists := existsb (String.eqb pdf) existing in
      if is_file && negb pdf_exists then
        if libreoffice then
          convert_loop libreoffice converts
            (if converts file_path then pdf :: existing else existing)
            pdf_files files'
        else None
      else if pdf_exists then
        convert_loop libreoffice converts existing (pdf_files ++ [pdf])%list files'
      else convert_loop libreoffice converts existing pdf_files files'
  end.

(** Python's [sorted] on strings, as a stable insertion sort. *)
Fixpoint insert_sorted (s : string) (l : list string) : list string :=
  match l with
  | [] => [s]
  | x :: l' => if String.leb x s then x :: insert_sorted s l' else s :: l
  end.

Definition py_sorted (l : list string) : list string :=
  fold_right insert_sorted [] (rev l).

Fixpoint teacher_documents (index : nat) (pdfs : list string) : list document :=
  match pdfs with
  | [] => []
  | pdf :: pdfs' =>
      {| doc_title := py_replace "_" " " (basename (fst (splitext pdf)));
         doc_source_id := "teacher_resource_" ++ nat_to_string index ++ "_id";
         doc_path := pdf |} :: teacher_documents (S index) pdfs'
  end.

Definition get_teacher_resources (libreoffice : bool) (converts : string -> bool)
    (existing : list string) (files : list (string * bool))
    : option (list document) :=
  match convert_loop libreoffice converts existing [] files with
  | None => None
  | Some pdf_files => Some (teacher_documents 0 (py_sorted pdf_files))
  end.

(** ** The video listing and [get_course]

    [posixpath.join(a, b)] *)
Definition py_join (a b : string) : string :=
  if String.prefix "/" b then b
  else if String.eqb a "" || ends_with "/" a then a ++ b
  else a ++ "/" ++ b.

(** [os.walk(dir_name)] is the list of the directories it yields, each with
    its path and its file names, a name paired with [os.path.isfile] of its
    joined path. *)
Definition walk_listing : Type := list (string * list (string * bool)).

(** [list_of_mp4s], built by the nested [for] loops over the walk. *)
Definition list_mp4s (walk : walk_listing) : list string :=
  flat_map (fun '(path, files) =>
              map (fun f => py_join path (fst f))
                  (filter (fun f => snd f && ends_with ".mp4" (fst f)) files))
           walk.

(** [dir_name], the directory walked for the videos of [zip_video_file]. *)
Definition video_dir (zip_video_file : string) : string :=
  "chefdata/" ++ basename (fst (splitext zip_video_file)).

(** The directory the video archive is extracted to. *)
Definition extract_dir (zip_video_file : string) : string :=
  "chefdata/" ++ zip_video_file.

Record topic := {
  t_title : xd;
  t_source_id : string;
  t_description : xd;
  t_children : list subtopic
}.

(** [title.replace(" ", "_")] on a value built by xmltodict: only a string
    has a [replace] method. *)
Definition xd_replace (old new : string) (v : xd) : res string :=
  match v with
  | XStr s => Ok (py_replace old new s)
  | _ => Raise AttributeError
  end.

(** [get_course], once the archives are extracted: [metadata] is
    [manifest.find("metadata", nsmap)] ([None] when absent), [walk] gives
    [os.walk] of a directory and [page] is the root of [pages.xml]. *)
Definition get_course (path_exists : string -> bool)
    (walk : string -> walk_listing) (metadata : option node) (page : node)
    (zip_video_file : string) : res topic :=
  mt <- match metadata with
        | Some m => Ok m
        | None => Raise AttributeError   (** [None.xpath] *)
        end ;;
  td <- read_manifest mt ;;
  let '(lesson_title, lesson_desc) := td in
  sid <- xd_replace " " "_" lesson_title ;;
  let list_of_mp4s := list_mp4s (walk (video_dir zip_video_file)) in
  subs <- walk_pages path_exists list_of_mp4s page ;;
  Ok {| t_title := lesson_title;
        t_source_id := sid ++ "_id";
        t_description := lesson_desc;
        t_children := subs |}.

(** ** [construct_channel]

    The courses are built by a function [course] of the lesson and its
    video archive (as [get_course]); [teacher] is the result of
    [get_teacher_resources], [None] when it exits. *)
Section construct_channel.
Variable T : Type.
Variable course : string -> string -> res T.

(** [for count, lesson in enumerate(self.lessons)] *)
Fixpoint course_loop (video_files : list string) (count : nat)
    (lessons : list string) : res (list T) :=
  match lessons with
  | [] => Ok []
  | lesson :: lessons' =>
      v <- match nth_error video_files count with
           | Some v => Ok v
           | None => Raise IndexError
           end ;;
      c <- course lesson v ;;
      cs <- course_loop video_files (S count) lessons' ;;
      Ok (c :: cs)
  end.

Definition construct_channel (lessons zipped_videos : list (string * option string))
    (teacher : option (list document)) : res (option (list T * list document)) :=
  let video_files := map fst zipped_videos in
  courses <- course_loop video_files 0 (map fst lessons) ;;
  Ok (match teacher with
      | Some docs => Some (courses, docs)
      | None => None
      end).

End construct_channel.

(** ** [download_page], [crawl] and [pre_run]

    [parse] reads, from the HTML of the course page, the anchors of the [li]
    items of the list of lessons and of the list of topics; it raises when
    the page does not have them. *)

Definition download_page (attempt : nat -> outcome)
    : option string * option string :=
  match rt_result (make_request attempt) with
  | None => (None, None)
  | Some r => (Some (resp_url r), Some (resp_text r))
  end.

(** The attributes [self.lessons] and [self.zipped_videos] of the chef;
    [None] while they are not set (a fresh chef has neither). *)
Record chef := {
  self_lessons : option (list (string * option string));
  self_zipped_videos : option (list (string * option string))
}.

Definition fresh_chef : chef :=
  {| self_lessons := None; self_zipped_videos := None |}.

(** [DigitalLiteracySushiChef.crawl]: it returns early, leaving [self] as it
    was, when the page could not be downloaded. When [crawl_topics] raises,
    the exception propagates and the state it leaves is not observed. *)
Definition crawl (attempt : nat -> outcome)
    (parse : string -> res (list anchor * list anchor)) (self : chef)
    : res chef :=
  let '(_, page) := download_page attempt in
  match page with
  | None => Ok self
  | Some html =>
      lis <- parse html ;;
      let '(lesson_lis, topic_lis) := lis in
      lessons <- crawl_lessons lesson_lis ;;
      topics <- crawl_topics topic_lis ;;
      Ok {| self_lessons := Some lessons; self_zipped_videos := Some topics |}
  end.

(** [DigitalLiteracySushiChef.download_courses] on [self]: reading a missing
    attribute raises [AttributeError]; [Ok None] is a [requests] exception,
    as in [download_courses]. *)
Definition chef_download_courses (get_ok : string -> bool) (files : list string)
    (self : chef)
    : res (option (list string * list (string * option string)
                   * list (string * option string))) :=
  match self_lessons self with
  | None => Raise AttributeError
  | Some lessons =>
      match download_loop get_ok files lessons with
      | None => Ok None
      | Some (files1, fetched_lessons) =>
          match self_zipped_videos self with
          | None => Raise AttributeError
          | Some zipped_videos =>
              Ok (match download_loop get_ok files1 zipped_videos with
                  | None => None
                  | Some (files2, fetched_videos) =>
                      Some (files2, fetched_lessons, fetched_videos)
                  end)
          end
      end
  end.

Definition pre_run (attempt : nat -> outcome)
    (parse : string -> res (list anchor * list anchor)) (get_ok : string -> bool)
    (files : list string) (self : chef)
    : res (option (list string * list (string * option string)
                   * list (string * option string))) :=
  self' <- crawl attempt parse self ;;
  chef_download_courses get_ok files self'.

(** * Properties *)

(** ** Generic lemmas on the error monad *)

Lemma bind_ok_r {A} (m : res A) : bind m Ok = m.
Proof. destruct m; reflexivity. Qed.

Lemma concat_res_app {A B} (f : A -> res (list B)) (l1 l2 : list A) :
  concat_res f (l1 ++ l2)%list =
  (x <- concat_res f l1 ;; y <- concat_res f l2 ;; Ok (x ++ y)%list).
Proof.
  induction l1 as [|a l1 IH]; simpl.
  - destruct (concat_res f l2); reflexivity.
  - destruct (f a) as [x|e]; simpl; [|reflexivity].
    rewrite IH. destruct (concat_res f l1) as [y|e]; simpl; [|reflexivity].
    destruct (concat_res f l2); simpl; [rewrite app_assoc|]; reflexivity.
Qed.

Lemma concat_res_skip {A B} (f : A -> res (list B)) (a : A) (l : list A) :
  f a = Ok [] -> concat_res f (a :: l) = concat_res f l.
Proof.
  intros H. simpl. rewrite H. simpl. apply bind_ok_r.
Qed.

Lemma concat_res_nil {A B} (f : A -> res (list B)) (l : list A) :
  Forall (fun a => f a = Ok []) l -> concat_res f l = Ok [].
Proof.
  induction 1 as [|a l Ha _ IH]; [reflexivity|].
  rewrite concat_res_skip by exact Ha. exact IH.
Qed.

(** A loop whose body only raises [IndexError] only raises [IndexError]. *)
Lemma concat_res_index_error {A B} (f : A -> res (list B)) (l : list A) :
  (forall a, f a <> Raise KeyError /\ f a <> Raise TypeError
             /\ f a <> Raise AttributeError) ->
  forall e, concat_res f l = Raise e -> e = IndexError.
Proof.
  intros Hf e. induction l as [|a l IH]; simpl; [discriminate|].
  destruct (f a) as [x|e'] eqn:Ha; simpl.
  - destruct (concat_res f l) as [y|e''] eqn:Hl; simpl; [discriminate|].
    intros H; inversion H; subst. apply IH; reflexivity.
  - intros H; inversion H; subst.
    destruct (Hf a) as (H1 & H2 & H3).
    destruct e; congruence.
Qed.

Lemma quiz_item_index_error (objective item : node) :
  quiz_item objective item <> Raise KeyError
  /\ quiz_item objective item <> Raise TypeError
  /\ quiz_item objective item <> Raise AttributeError.
Proof.
  unfold quiz_item.
  destruct (opt_eqb _ _); [|repeat split; discriminate].
  destruct (find "prompt" item); [|repeat split; discriminate].
  destruct (map text_of _); simpl; repeat split; discriminate.
Qed.

(** ** C9: namespace stripping *)

Lemma strip_ns_prefix_ns_cleared ns local attrs text kids :
  exists kids', strip_ns_prefix (Element ns local attrs text kids)
                = Element "" local attrs text kids'.
Proof.
  simpl. eexists. f_equal.
  destruct (String.eqb_spec ns ""); [assumption|reflexivity].
Qed.

(** C9: [strip_ns_prefix] is idempotent: stripping an already stripped tree
    changes nothing. *)
Theorem strip_ns_prefix_idempotent (t : node) :
  strip_ns_prefix (strip_ns_prefix t) = strip_ns_prefix t.
Proof.
  induction t as [ns local attrs text kids IH | c | tg c] using node_ind';
    [|reflexivity|reflexivity].
  simpl. f_equal.
  - destruct (String.eqb ns "") eqn:E; [apply String.eqb_eq in E; subst|];
      reflexivity.
  - rewrite map_map. induction IH as [|k kids Hk _ IHk]; [reflexivity|].
    simpl. rewrite Hk. f_equal. exact IHk.
Qed.

(** ** C10: a choice question without a prompt *)

Lemma quiz_item_no_prompt (objective q : node) :
  opt_eqb (get "type" q) (Some "choice") = true ->
  find "prompt" q = None ->
  quiz_item objective q = Ok [].
Proof.
  intros Hty Hp. unfold quiz_item. rewrite Hty, Hp. reflexivity.
Qed.

(** C10: a question of type ["choice"] with no [prompt] child element is
    skipped by [get_quiz_from_objective]: the quiz is the one of the other
    questions, whatever its choices and correct flags are. *)
Theorem quiz_skips_question_without_prompt (objective q : node)
    (pre post : list node) :
  findall "question" objective = (pre ++ q :: post)%list ->
  get "type" q = Some "choice" ->
  find "prompt" q = None ->
  get_quiz_from_objective objective = concat_res (quiz_item objective) (pre ++ post)%list.
Proof.
  intros Hqs Hty Hp. unfold get_quiz_from_objective. rewrite Hqs.
  rewrite !concat_res_app.
  rewrite concat_res_skip.
  - reflexivity.
  - apply quiz_item_no_prompt; [rewrite Hty; reflexivity | exact Hp].
Qed.

(** ** C2 and C7: quiz reconstruction *)

Definition is_choice (q : node) : bool := opt_eqb (get "type" q) (Some "choice").

(** A ["choice"] question with a prompt is built around the text of its first
    flagged choice. *)
Lemma quiz_item_choice (objective q : node) (p c : node) (rest : list node) :
  is_choice q = true ->
  find "prompt" q = Some p ->
  filter is_flagged (findall "choice" q) = c :: rest ->
  exists x, quiz_item objective q = Ok [x] /\ q_correct x = text_of c.
Proof.
  intros Hc Hp Hf. unfold quiz_item. unfold is_choice in Hc.
  rewrite Hc, Hp, Hf. simpl. eexists. split; reflexivity.
Qed.

Lemma quiz_item_not_choice (objective q : node) :
  is_choice q = false -> quiz_item objective q = Ok [].
Proof. intros Hc. unfold quiz_item. unfold is_choice in Hc. rewrite Hc. reflexivity. Qed.

Definition correct_from (q : node) (x : question) : Prop :=
  exists c rest, filter is_flagged (findall "choice" q) = c :: rest
                 /\ q_correct x = text_of c.

(** When every ["choice"] question has a prompt and a flagged choice, the quiz
    has one question per ["choice"] question, in order. *)
Lemma quiz_loop_ok (objective : node) (qs : list node) :
  Forall (fun q => find "prompt" q <> None
                   /\ filter is_flagged (findall "choice" q) <> [])
         (filter is_choice qs) ->
  exists l, concat_res (quiz_item objective) qs = Ok l
            /\ Forall2 correct_from (filter is_choice qs) l.
Proof.
  induction qs as [|q qs IH]; simpl; intros Hall.
  - exists []. split; constructor.
  - destruct (is_choice q) eqn:Hc.
    + inversion Hall as [|? ? [Hp Hf] Hrest]; subst.
      destruct (find "prompt" q) as [p|] eqn:Hp'; [|congruence].
      destruct (filter is_flagged (findall "choice" q)) as [|c rest] eqn:Hf';
        [congruence|].
      destruct (quiz_item_choice objective q p c rest Hc Hp' Hf') as (x & Hx & Hcx).
      destruct (IH Hrest) as (l & Hl & H2).
      rewrite Hx. simpl. rewrite Hl. simpl.
      exists (x :: l). split; [reflexivity|].
      constructor; [exists c, rest; split; assumption | exact H2].
    + rewrite (quiz_item_not_choice objective q Hc). simpl.
      destruct (IH Hall) as (l & Hl & H2). rewrite Hl. simpl.
      exists l. split; [reflexivity | exact H2].
Qed.

(** C2 (amended): a reference id that no objective carries makes
    [get_exercise_node] raise [IndexError]; so does, in
    [get_quiz_from_objective], a ["choice"] question that has a [prompt] child
    but no choice flagged correct. *)
Theorem quiz_lookup_failures_are_fatal :
  (forall (idx : option string) (objectives : list node) (lesson : string),
     Forall (fun o => opt_eqb (get "id" o) idx = false) objectives ->
     get_exercise_node idx objectives lesson = Raise IndexError)
  /\
  (forall (objective q : node) (pre post : list node),
     findall "question" objective = (pre ++ q :: post)%list ->
     get "type" q = Some "choice" ->
     find "prompt" q <> None ->
     filter is_flagged (findall "choice" q) = [] ->
     get_quiz_from_objective objective = Raise IndexError).
Proof.
  split.
  - intros idx objectives lesson Hnone. unfold get_exercise_node.
    replace (filter (fun o => opt_eqb (get "id" o) idx) objectives) with (@nil node).
    + reflexivity.
    + symmetry. induction Hnone as [|o os Ho _ IH]; [reflexivity|].
      simpl. rewrite Ho. exact IH.
  - intros objective q pre post Hqs Hty Hp Hf.
    unfold get_quiz_from_objective. rewrite Hqs, concat_res_app.
    assert (Hq : quiz_item objective q = Raise IndexError).
    { unfold quiz_item. rewrite Hty. simpl.
      destruct (find "prompt" q); [|congruence]. rewrite Hf. reflexivity. }
    destruct (concat_res (quiz_item objective) pre) as [x|e] eqn:Hpre; simpl.
    + rewrite Hq. reflexivity.
    + f_equal. apply (concat_res_index_error (quiz_item objective) pre); [|exact Hpre].
      intros a. apply quiz_item_index_error.
Qed.

(** C7 (amended): an objective with exactly three ["choice"] questions, each
    with a prompt and exactly one choice flagged correct, gives exactly three
    questions, each answered by the text of its flagged choice. *)
Theorem quiz_three_choice_questions (objective : node) :
  length (filter is_choice (findall "question" objective)) = 3 ->
  Forall (fun q => find "prompt" q <> None
                   /\ exists c, filter is_flagged (findall "choice" q) = [c])
         (filter is_choice (findall "question" objective)) ->
  exists l, get_quiz_from_objective objective = Ok l
            /\ length l = 3
            /\ Forall2 (fun q x => exists c,
                          filter is_flagged (findall "choice" q) = [c]
                          /\ q_correct x = text_of c)
                       (filter is_choice (findall "question" objective)) l.
Proof.
  intros H3 Hall.
  destruct (quiz_loop_ok objective (findall "question" objective)) as (l & Hl & H2).
  - eapply Forall_impl; [|exact Hall].
    intros q [Hp [c Hc]]. split; [exact Hp | rewrite Hc; discriminate].
  - exists l. unfold get_quiz_from_objective. split; [exact Hl|].
    split.
    + rewrite <- (Forall2_length H2). exact H3.
    + clear H3 Hl.
      induction H2 as [|q x qs l Hqx _ IH]; constructor.
      * inversion Hall as [|? ? [_ [c' Hc']] _]; subst.
        destruct Hqx as (c & rest & Hc & Hx).
        exists c'. split; [exact Hc'|]. rewrite Hc' in Hc. inversion Hc; subst.
        exact Hx.
      * apply IH. inversion Hall; assumption.
Qed.

(** ** C5 and C6: matching videos *)

Lemma filter_first {A} (f : A -> bool) (pre post : list A) (p : A) :
  Forall (fun q => f q = false) pre -> f p = true ->
  filter f (pre ++ p :: post)%list = p :: filter f post.
Proof.
  intros Hpre Hp. rewrite filter_app.
  replace (filter f pre) with (@nil A).
  - simpl. rewrite Hp. reflexivity.
  - symmetry. induction Hpre as [|q pre Hq _ IH]; [reflexivity|].
    simpl. rewrite Hq. exact IH.
Qed.

Lemma filter_none {A} (f : A -> bool) (l : list A) :
  Forall (fun q => f q = false) l -> filter f l = [].
Proof.
  induction 1 as [|q l Hq _ IH]; [reflexivity|]. simpl. rewrite Hq. exact IH.
Qed.

Example ends_with_any_directory :
  filter (ends_with "tail.mp4") ["A/x.mp4"; "B/tail.mp4"] = ["B/tail.mp4"].
Proof. reflexivity. Qed.

(** C5: a video element declaring the file name fragment [frag] is matched to
    the first enumerated path that ends with [frag], whatever its directory;
    when no path ends with [frag], the video gives no node and no error. *)
Theorem media_match_first_suffix (path_exists : string -> bool)
    (list_of_mp4s : list string) (level1 v : node) (idx : nat) (frag : string) :
  has_tag "video" v = true ->
  get "fileName" v = Some frag ->
  (forall pre p post,
     list_of_mp4s = (pre ++ p :: post)%list ->
     Forall (fun q => ends_with frag q = false) pre ->
     ends_with frag p = true ->
     exists x, process_video path_exists list_of_mp4s level1 (idx, v) = Ok [CVideo x]
               /\ v_path x = p)
  /\
  (Forall (fun q => ends_with frag q = false) list_of_mp4s ->
   process_video path_exists list_of_mp4s level1 (idx, v) = Ok []).
Proof.
  intros Hv Hf. unfold process_video. rewrite Hv. simpl. rewrite Hf. simpl.
  split.
  - intros pre p post Hl Hpre Hp. subst list_of_mp4s.
    rewrite (filter_first _ pre post p Hpre Hp).
    eexists. split; reflexivity.
  - intros Hnone. rewrite (filter_none _ _ Hnone). reflexivity.
Qed.

Lemma process_video_match (path_exists : string -> bool)
    (list_of_mp4s : list string) (level1 v : node) (idx : nat) :
  has_tag "video" v = true ->
  (exists frag p rest, get "fileName" v = Some frag
                       /\ filter (ends_with frag) list_of_mp4s = p :: rest) ->
  exists x, process_video path_exists list_of_mp4s level1 (idx, v) = Ok [CVideo x]
            /\ v_title x = (if Nat.eqb idx 0 then get "name" level1
                            else Some (py_str (get "name" level1) ++ "-"
                                       ++ nat_to_string idx ++ " part")).
Proof.
  intros Hv (frag & p & rest & Hf & Hm). unfold process_video. rewrite Hv.
  simpl. rewrite Hf. simpl. rewrite Hm. eexists. split; reflexivity.
Qed.

(** C6 (amended): in a group named [n] (other than ["Knowledge check"])
    whose child nodes are exactly two video elements that both match a media
    file, the first video node is titled [n] and the second ["n-1 part"]. *)
Theorem second_video_title_index_one (path_exists : string -> bool)
    (list_of_mp4s : list string) (objectives : list node) (level0_name : string)
    (level1 v1 v2 : node) (n : string) :
  get "name" level1 = Some n ->
  n <> "Knowledge check" ->
  children level1 = [v1; v2] ->
  has_tag "video" v1 = true ->
  has_tag "video" v2 = true ->
  (exists frag p rest, get "fileName" v1 = Some frag
                       /\ filter (ends_with frag) list_of_mp4s = p :: rest) ->
  (exists frag p rest, get "fileName" v2 = Some frag
                       /\ filter (ends_with frag) list_of_mp4s = p :: rest) ->
  exists x1 x2,
    process_level1 path_exists list_of_mp4s objectives level0_name level1
      = Ok [CVideo x1; CVideo x2]
    /\ v_title x1 = Some n /\ v_title x2 = Some (n ++ "-1 part").
Proof.
  intros Hn Hkc Hk Hv1 Hv2 Hm1 Hm2.
  destruct (process_video_match path_exists list_of_mp4s level1 v1 0 Hv1 Hm1)
    as (x1 & H1 & T1).
  destruct (process_video_match path_exists list_of_mp4s level1 v2 1 Hv2 Hm2)
    as (x2 & H2 & T2).
  assert (Hkc' : opt_eqb (Some n) (Some "Knowledge check") = false)
    by (apply String.eqb_neq; exact Hkc).
  exists x1, x2. unfold process_level1. rewrite Hn, Hk, Hkc'.
  cbn [enumerate_from concat_res]. rewrite H1, H2. cbn [bind].
  split; [reflexivity|]. rewrite T1, T2, Hn. split; reflexivity.
Qed.

(** ** C3 and C4: which level0 elements give a sub-topic *)

(** A level0 element with at most one child node gives no sub-topic. *)
Lemma walk_level0_short (path_exists : string -> bool)
    (list_of_mp4s : list string) (objectives : list node) (level0 : node) :
  length (children level0) <= 1 ->
  walk_level0 path_exists list_of_mp4s objectives level0 = Ok [].
Proof.
  intros Hlen. unfold walk_level0.
  destruct (existsb _ discarded); [reflexivity|].
  apply Nat.leb_le in Hlen. rewrite Hlen. reflexivity.
Qed.

(** A group that is not a knowledge check and has no child node gives nothing. *)
Lemma process_level1_empty_group (path_exists : string -> bool)
    (list_of_mp4s : list string) (objectives : list node) (level0_name : string)
    (level1 : node) :
  opt_eqb (get "name" level1) (Some "Knowledge check") = false ->
  children level1 = [] ->
  process_level1 path_exists list_of_mp4s objectives level0_name level1 = Ok [].
Proof.
  intros Hkc Hk. unfold process_level1. rewrite Hkc, Hk. reflexivity.
Qed.

(** C3 (amended): a level0 element outside the discard set, with at least two
    child nodes, whose first child has a child, and whose later children all
    give nothing, yields a sub-topic with no children; a level0 element whose
    only child is the description placeholder yields no sub-topic. *)
Theorem empty_subtopic_not_suppressed (path_exists : string -> bool)
    (list_of_mp4s : list string) (objectives : list node) :
  (forall (level0 first d : node) (ds rest : list node),
     existsb (String.eqb (or_empty (get "name" level0))) discarded = false ->
     children level0 = first :: rest ->
     rest <> [] ->
     children first = d :: ds ->
     Forall (fun l1 => process_level1 path_exists list_of_mp4s objectives
                         (or_empty (get "name" level0)) l1 = Ok []) rest ->
     exists st, walk_level0 path_exists list_of_mp4s objectives level0 = Ok [st]
                /\ st_title st = or_empty (get "name" level0)
                /\ st_children st = [])
  /\
  (forall (level0 placeholder : node),
     children level0 = [placeholder] ->
     walk_level0 path_exists list_of_mp4s objectives level0 = Ok []).
Proof.
  split.
  - intros level0 first d ds rest Hd Hk Hrest Hf Hnil.
    unfold walk_level0. rewrite Hd, Hk.
    destruct rest as [|r rest]; [congruence|].
    simpl (Nat.leb _ _). cbn [index0 bind tl]. rewrite Hf. cbn [index0 bind].
    rewrite (concat_res_nil _ _ Hnil). simpl.
    eexists. split; [reflexivity|]. split; reflexivity.
  - intros level0 placeholder Hk. apply walk_level0_short. rewrite Hk. simpl. lia.
Qed.

(** C4 (amended): a level0 element with at most one child node, counting
    comments and processing instructions as well as elements, yields no
    sub-topic. *)
Theorem level0_single_child_skipped (path_exists : string -> bool)
    (list_of_mp4s : list string) (objectives : list node) (level0 : node) :
  length (children level0) <= 1 ->
  walk_level0 path_exists list_of_mp4s objectives level0 = Ok [].
Proof. apply walk_level0_short. Qed.

(** ** C8: caption path *)

Fixpoint has_char (c : ascii) (s : string) : bool :=
  match s with
  | EmptyString => false
  | String x s' => Ascii.eqb x c || has_char c s'
  end.

Definition starts_non_space (s : string) : bool :=
  match s with
  | EmptyString => false
  | String c _ => negb (py_isspace c)
  end.

Fixpoint ends_non_space (s : string) : bool :=
  match s with
  | EmptyString => false
  | String c s' => if String.eqb s' "" then negb (py_isspace c) else ends_non_space s'
  end.

Lemma str_app_assoc (a b c : string) : (a ++ b) ++ c = a ++ (b ++ c).
Proof. induction a as [|x a IH]; simpl; [reflexivity | rewrite IH; reflexivity]. Qed.

Lemma str_app_nil_r (a : string) : a ++ "" = a.
Proof. induction a as [|x a IH]; simpl; [reflexivity | rewrite IH; reflexivity]. Qed.

Lemma str_length_app (a b : string) :
  String.length (a ++ b) = (String.length a + String.length b)%nat.
Proof. induction a as [|x a IH]; simpl; [reflexivity | rewrite IH; reflexivity]. Qed.

Lemma prefix_app_long (pat s t : string) :
  (String.length pat <= String.length s)%nat ->
  String.prefix pat (s ++ t) = String.prefix pat s.
Proof.
  revert s. induction pat as [|p pat IH]; intros s Hlen.
  - destruct s, t; reflexivity.
  - destruct s as [|x s]; simpl in Hlen; [lia|]. simpl.
    destruct (ascii_dec p x); [apply IH; lia | reflexivity].
Qed.

Lemma replace_aux_no_occurrence (old new s : string) :
  contains old s = false -> replace_aux old new 0 s = s.
Proof.
  induction s as [|c s IH]; simpl; intros H; [reflexivity|].
  apply orb_false_iff in H as [H1 H2]. rewrite H1, IH by exact H2. reflexivity.
Qed.

Lemma replace_aux_skip (old new a b : string) :
  replace_aux old new (String.length a) (a ++ b) = replace_aux old new 0 b.
Proof. induction a as [|c a IH]; simpl; [reflexivity | exact IH]. Qed.

Lemma replace_aux_before (old new a u b : string) :
  (String.length old <= S (String.length u))%nat ->
  contains old (a ++ u) = false ->
  replace_aux old new 0 (a ++ u ++ b) = a ++ replace_aux old new 0 (u ++ b).
Proof.
  intros Hlen. induction a as [|c a IH]; intros H; [reflexivity|].
  cbn [String.append contains] in H |- *. cbn [replace_aux].
  apply orb_false_iff in H as [H1 H2].
  replace (String.prefix old (String c (a ++ u ++ b))) with false.
  - rewrite IH by exact H2. reflexivity.
  - rewrite <- H1. rewrite <- str_app_assoc.
    change (String c ((a ++ u) ++ b)) with (String c (a ++ u) ++ b).
    symmetry. apply prefix_app_long. cbn [String.length].
    rewrite str_length_app. lia.
Qed.

Lemma contains_slash_free (s : string) :
  has_char "/" s = false -> contains "/Videos/" s = false.
Proof.
  induction s as [|c s IH]; intros H; [reflexivity|].
  cbn [has_char contains] in H |- *.
  apply orb_false_iff in H as [H1 H2]. rewrite IH by exact H2.
  rewrite orb_false_r.
  change (String.prefix "/Videos/" (String c s))
    with (if ascii_dec "/" c then String.prefix "Videos/" s else false).
  destruct (ascii_dec "/" c) as [<-|]; [discriminate|reflexivity].
Qed.

Lemma prefix_self_app (s t : string) : String.prefix s (s ++ t) = true.
Proof.
  induction s as [|c s IH].
  - destruct t; reflexivity.
  - cbn [String.append String.prefix].
    destruct (ascii_dec c c); [exact IH | contradiction].
Qed.

Lemma replace_aux_at (old new t : string) (c : ascii) (o : string) :
  old = String c o ->
  replace_aux old new 0 (old ++ t) = new ++ replace_aux old new 0 t.
Proof.
  intros Hold. subst old. cbn [String.append replace_aux].
  replace (String.prefix (String c o) (String c (o ++ t))) with true
    by (symmetry; apply (prefix_self_app (String c o) t)).
  f_equal. cbn [String.length].
  rewrite Nat.sub_succ, Nat.sub_0_r. apply replace_aux_skip.
Qed.

Lemma replace_videos_segment (pre rest : string) :
  contains "/Videos/" (pre ++ "/Videos") = false ->
  has_char "/" rest = false ->
  py_replace "/Videos/" "/Captions/" (pre ++ "/Videos/" ++ rest)
  = pre ++ "/Captions/" ++ rest.
Proof.
  intros Hpre Hrest. unfold py_replace.
  change ("/Videos/" ++ rest) with ("/Videos" ++ ("/" ++ rest)).
  rewrite replace_aux_before by (simpl; lia || exact Hpre).
  f_equal. change ("/Videos" ++ "/" ++ rest) with ("/Videos/" ++ rest).
  rewrite (replace_aux_at _ _ rest "/" "Videos/") by reflexivity.
  rewrite replace_aux_no_occurrence by (apply contains_slash_free; exact Hrest).
  reflexivity.
Qed.

Lemma has_char_app (c : ascii) (a b : string) :
  has_char c (a ++ b) = has_char c a || has_char c b.
Proof.
  induction a as [|x a IH]; [reflexivity|]. cbn [String.append has_char].
  rewrite IH, orb_assoc. reflexivity.
Qed.

Lemma split_last_none (c : ascii) (b : string) :
  has_char c b = false -> split_last c b = None.
Proof.
  induction b as [|x b IH]; intros H; [reflexivity|].
  cbn [has_char] in H. apply orb_false_iff in H as [H1 H2].
  cbn [split_last]. rewrite IH by exact H2. rewrite H1. reflexivity.
Qed.

Lemma split_last_app (c : ascii) (a b : string) :
  has_char c b = false -> split_last c (a ++ String c b) = Some (a, b).
Proof.
  intros Hb. induction a as [|x a IH].
  - cbn [String.append split_last]. rewrite split_last_none by exact Hb.
    rewrite Ascii.eqb_refl. reflexivity.
  - cbn [String.append split_last]. rewrite IH. reflexivity.
Qed.

Lemma splitext_mp4 (dir stem : string) :
  has_char "/" stem = false ->
  has_non_dot stem = true ->
  splitext (dir ++ "/" ++ stem ++ ".mp4") = (dir ++ "/" ++ stem, ".mp4").
Proof.
  intros Hs Hd. unfold splitext.
  change ("/" ++ stem ++ ".mp4") with (String "/" (stem ++ ".mp4")).
  rewrite split_last_app
    by (rewrite has_char_app, Hs; reflexivity).
  change ".mp4" with (String "." "mp4").
  rewrite split_last_app by reflexivity.
  rewrite Hd. rewrite !str_app_assoc. reflexivity.
Qed.

Lemma lstrip_id (s : string) : starts_non_space s = true -> lstrip s = s.
Proof.
  destruct s as [|c s]; [discriminate|]. cbn [starts_non_space lstrip].
  intros H. apply negb_true_iff in H. rewrite H. reflexivity.
Qed.

Lemma rstrip_id (s : string) : ends_non_space s = true -> rstrip s = s.
Proof.
  induction s as [|c s IH]; intros H; [discriminate|].
  cbn [ends_non_space] in H. cbn [rstrip].
  destruct (String.eqb_spec s "") as [->|Hne].
  - apply negb_true_iff in H. rewrite H. reflexivity.
  - rewrite IH by exact H.
    replace (String.eqb s "") with false
      by (symmetry; apply String.eqb_neq; exact Hne).
    reflexivity.
Qed.

Lemma ends_non_space_app (a b : string) :
  ends_non_space b = true -> ends_non_space (a ++ b) = true.
Proof.
  intros Hb. induction a as [|x a IH]; [exact Hb|].
  cbn [String.append ends_non_space].
  replace (String.eqb (a ++ b) "") with false; [exact IH|].
  symmetry. apply String.eqb_neq. destruct a, b; discriminate.
Qed.

Lemma py_strip_id (pre rest : string) :
  starts_non_space (pre ++ "/") = true ->
  ends_non_space rest = true ->
  py_strip (pre ++ "/" ++ rest) = pre ++ "/" ++ rest.
Proof.
  intros Hs He. unfold py_strip.
  rewrite lstrip_id by (destruct pre; exact Hs).
  apply rstrip_id. apply ends_non_space_app.
  change ("/" ++ rest) with (String "/" rest). cbn [ends_non_space].
  replace (String.eqb rest "") with false; [exact He|].
  symmetry. apply String.eqb_neq. destruct rest; [discriminate|congruence].
Qed.

(** C8 (amended): for a matched path [P/Videos/<stem>.mp4] in which
    ["/Videos/"] occurs only as that segment, whose stem has no ["/"], a
    character other than ["."], and no whitespace at its end, and which does
    not start with whitespace, the caption path probes
    [P/Captions/<stem>_Video_cc.ttml] and, when that file is absent, is
    [P/Captions/<stem>.ttml], whose existence is not checked. *)
Theorem caption_path_candidates (path_exists : string -> bool)
    (pre stem : string) :
  contains "/Videos/" (pre ++ "/Videos") = false ->
  has_char "/" stem = false ->
  has_non_dot stem = true ->
  ends_non_space stem = true ->
  starts_non_space (pre ++ "/") = true ->
  tttl_from_mp4 path_exists (pre ++ "/Videos/" ++ stem ++ ".mp4")
  = (let root := pre ++ "/Captions/" ++ stem in
     if path_exists (root ++ "_Video_cc.ttml") then root ++ "_Video_cc.ttml"
     else root ++ ".ttml").
Proof.
  intros Hpre Hslash Hdot Hend Hstart. unfold tttl_from_mp4.
  rewrite replace_videos_segment
    by (exact Hpre || (rewrite has_char_app, Hslash; reflexivity)).
  change ("/Captions/" ++ stem ++ ".mp4") with ("/Captions" ++ "/" ++ stem ++ ".mp4").
  rewrite <- (str_app_assoc pre "/Captions").
  rewrite splitext_mp4 by assumption. cbn [fst].
  rewrite py_strip_id.
  - rewrite !str_app_assoc. cbv zeta.
    destruct (path_exists _); reflexivity.
  - rewrite str_app_assoc. destruct pre; exact Hstart.
  - exact Hend.
Qed.

(** ** C1: missing manifest metadata *)




(** * Concrete inputs: witnesses and counterexamples *)

Definition el (tag : string) (attrs : list (string * string)) (text : option string)
    (kids : list node) : node :=
  Element "" tag attrs text kids.

Definition is_element (n : node) : bool :=
  match n with
  | Element _ _ _ _ _ => true
  | _ => false
  end.

(** *** Manifests *)

Definition imsmd : string := "http://www.imsglobal.org/xsd/imsmd_rootv1p2p1".

Definition md (tag : string) (attrs : list (string * string)) (text : option string)
    (kids : list node) : node :=
  Element imsmd tag attrs text kids.

Definition langstring (t : string) : node :=
  md "langstring" [("xml:lang", "en-US")] (Some t) [].

Definition metadata_with (general_kids : list node) : node :=
  Element "http://www.imsglobal.org/xsd/imscp_rootv1p1p2" "metadata" [] None
    [md "lom" [] None [md "general" [] None general_kids]].








(** *** Quizzes *)

Definition choice (t : string) (correct : bool) : node :=
  el "choice" (if correct then [("correct", "true")] else []) (Some t) [].

Definition choice_question (id : string) (prompt : option string)
    (choices : list node) : node :=
  el "question" [("type", "choice"); ("id", id)] None
    (match prompt with
     | Some p => el "prompt" [] (Some p) [] :: choices
     | None => choices
     end).

Definition objective (id name : string) (questions : list node) : node :=
  el "objective" [("id", id); ("name", name)] None questions.

Definition q_ok (id p : string) : node :=
  choice_question id (Some p) [choice "Yes" true; choice "No" false].

Definition q_no_prompt_no_flag : node :=
  choice_question "2" None [choice "Yes" false; choice "No" false].

Definition q_prompt_no_flag : node :=
  choice_question "2" (Some "Is it?") [choice "Yes" false; choice "No" false].

Lemma quiz_question_without_flag_not_fatal :
  get "type" q_no_prompt_no_flag = Some "choice"
  /\ filter is_flagged (findall "choice" q_no_prompt_no_flag) = []
  /\ exists ex, get_exercise_node (Some "o1")
                  [objective "o1" "Mouse" [q_no_prompt_no_flag]] "Basics" = Ok ex
                /\ ex_questions ex = [].
Proof.
  split; [reflexivity | split; [reflexivity|]].
  eexists. split; reflexivity.
Qed.

Lemma quiz_lookup_failures_are_fatal_witness :
  get_exercise_node (Some "o2") [objective "o1" "Mouse" [q_ok "1" "Click?"]] "Basics"
    = Raise IndexError
  /\ get_quiz_from_objective
       (objective "o1" "Mouse" [q_ok "1" "Click?"; q_prompt_no_flag])
     = Raise IndexError.
Proof.
  split.
  - apply (proj1 quiz_lookup_failures_are_fatal).
    repeat constructor.
  - apply (proj2 quiz_lookup_failures_are_fatal _ q_prompt_no_flag
             [q_ok "1" "Click?"] []);
      [reflexivity | reflexivity | discriminate | reflexivity].
Defined.

Lemma quiz_question_without_prompt_dropped :
  length (filter is_choice
            (findall "question"
               (objective "o1" "Mouse"
                  [q_ok "1" "A?"; choice_question "2" None [choice "Yes" true];
                   q_ok "3" "C?"]))) = 3
  /\ exists l, get_quiz_from_objective
                 (objective "o1" "Mouse"
                    [q_ok "1" "A?"; choice_question "2" None [choice "Yes" true];
                     q_ok "3" "C?"]) = Ok l
               /\ length l = 2.
Proof.
  split; [reflexivity|]. eexists. split; reflexivity.
Qed.

Lemma quiz_three_choice_questions_witness :
  exists l, get_quiz_from_objective
              (objective "o1" "Mouse" [q_ok "1" "A?"; q_ok "2" "B?"; q_ok "3" "C?"])
            = Ok l
            /\ length l = 3
            /\ Forall2 (fun q x => exists c,
                          filter is_flagged (findall "choice" q) = [c]
                          /\ q_correct x = text_of c)
                 (filter is_choice (findall "question"
                    (objective "o1" "Mouse" [q_ok "1" "A?"; q_ok "2" "B?"; q_ok "3" "C?"])))
                 l.
Proof.
  apply quiz_three_choice_questions; [reflexivity|].
  repeat constructor; try discriminate; eexists; reflexivity.
Defined.

Lemma quiz_skips_question_without_prompt_witness :
  get_quiz_from_objective
    (objective "o1" "Mouse" [q_ok "1" "A?"; q_no_prompt_no_flag; q_ok "3" "C?"])
  = concat_res (quiz_item (objective "o1" "Mouse"
                             [q_ok "1" "A?"; q_no_prompt_no_flag; q_ok "3" "C?"]))
      [q_ok "1" "A?"; q_ok "3" "C?"].
Proof.
  apply (quiz_skips_question_without_prompt _ q_no_prompt_no_flag
           [q_ok "1" "A?"] [q_ok "3" "C?"]); reflexivity.
Defined.

(** *** Outline and media *)

Definition no_file : string -> bool := fun _ => false.

Definition video_el (file_name : string) : node :=
  el "video" [("fileName", file_name)] None [].

Definition placeholder : node :=
  el "level1" [("name", "Introduction")] None
    [el "text" [] (Some "In this lesson you learn to use a mouse.") []].

Definition mp4s : list string :=
  ["chefdata/Basics/Videos/mouse.mp4"; "chefdata/Basics/Videos/keyboard.mp4"].

(** A group whose first child is a transcript, then two videos. *)
Definition group_with_transcript : node :=
  el "level1" [("name", "Using a mouse"); ("pageId", "p2")] None
    [el "transcript" [] (Some "Transcript") []; video_el "mouse.mp4";
     video_el "keyboard.mp4"].

Definition group_two_videos : node :=
  el "level1" [("name", "Using a mouse"); ("pageId", "p2")] None
    [video_el "mouse.mp4"; video_el "keyboard.mp4"].

Lemma video_index_counts_all_children :
  exists x1 x2,
    process_level1 no_file mp4s [] "Mouse" group_with_transcript
      = Ok [CVideo x1; CVideo x2]
    /\ v_title x1 = Some "Using a mouse-1 part"
    /\ v_title x2 = Some "Using a mouse-2 part".
Proof.
  do 2 eexists. split; [reflexivity | split; reflexivity].
Qed.

Lemma second_video_title_index_one_witness :
  exists x1 x2,
    process_level1 no_file mp4s [] "Mouse" group_two_videos
      = Ok [CVideo x1; CVideo x2]
    /\ v_title x1 = Some "Using a mouse"
    /\ v_title x2 = Some ("Using a mouse" ++ "-1 part").
Proof.
  apply (second_video_title_index_one no_file mp4s [] "Mouse" group_two_videos
           (video_el "mouse.mp4") (video_el "keyboard.mp4") "Using a mouse");
    [reflexivity | discriminate | reflexivity | reflexivity | reflexivity
    | do 3 eexists; split; reflexivity | do 3 eexists; split; reflexivity].
Defined.

Lemma media_match_first_suffix_witness :
  (exists x, process_video no_file ["A/x.mp4"; "B/tail.mp4"] group_two_videos
               (0, video_el "tail.mp4") = Ok [CVideo x]
             /\ v_path x = "B/tail.mp4")
  /\ process_video no_file ["A/x.mp4"] group_two_videos (0, video_el "tail.mp4")
     = Ok [].
Proof.
  split.
  - apply (proj1 (media_match_first_suffix no_file ["A/x.mp4"; "B/tail.mp4"]
                    group_two_videos (video_el "tail.mp4") 0 "tail.mp4"
                    eq_refl eq_refl) ["A/x.mp4"] "B/tail.mp4" []);
      [reflexivity | repeat constructor | reflexivity].
  - apply (proj2 (media_match_first_suffix no_file ["A/x.mp4"]
                    group_two_videos (video_el "tail.mp4") 0 "tail.mp4"
                    eq_refl eq_refl)).
    repeat constructor.
Defined.

Definition level0_placeholder_only : node :=
  el "level0" [("name", "Using a mouse")] None [placeholder].

Definition level0_empty_group : node :=
  el "level0" [("name", "Using a mouse")] None
    [placeholder; el "level1" [("name", "Videos")] None []].

(** One child element and a comment. *)
Definition level0_commented : node :=
  el "level0" [("name", "Using a mouse")] None
    [placeholder; Comment " end of page "].

Lemma placeholder_only_level0_emits_nothing :
  existsb (String.eqb "Using a mouse") discarded = false
  /\ walk_level0 no_file mp4s [] level0_placeholder_only = Ok [].
Proof. split; reflexivity. Qed.

Lemma empty_subtopic_not_suppressed_witness :
  (exists st, walk_level0 no_file mp4s [] level0_empty_group = Ok [st]
              /\ st_title st = "Using a mouse"
              /\ st_children st = [])
  /\ walk_level0 no_file mp4s [] level0_placeholder_only = Ok [].
Proof.
  split.
  - apply (proj1 (empty_subtopic_not_suppressed no_file mp4s [])
             level0_empty_group placeholder
             (el "text" [] (Some "In this lesson you learn to use a mouse.") []) []
             [el "level1" [("name", "Videos")] None []]);
      [reflexivity | reflexivity | discriminate | reflexivity |].
    repeat constructor.
  - apply (proj2 (empty_subtopic_not_suppressed no_file mp4s [])
             level0_placeholder_only placeholder).
    reflexivity.
Defined.

Lemma commented_level0_emits_subtopic :
  length (filter is_element (children level0_commented)) = 1
  /\ exists st, walk_level0 no_file mp4s [] level0_commented = Ok [st].
Proof. split; [reflexivity | eexists; reflexivity]. Qed.

Lemma level0_single_child_skipped_witness :
  walk_level0 no_file mp4s [] level0_placeholder_only = Ok [].
Proof. apply level0_single_child_skipped. simpl. lia. Defined.

(** *** Caption paths *)

(** A stem ending in a space: [strip()] removes it before the suffixes are
    added, so the probed and returned names differ from [<stem>_Video_cc.ttml]
    and [<stem>.ttml]; here the [_Video_cc] file of the stem exists. *)
Lemma caption_path_strips_stem :
  tttl_from_mp4
    (fun p => String.eqb p "chefdata/Basics/Captions/lesson1 _Video_cc.ttml")
    "chefdata/Basics/Videos/lesson1 .mp4"
  = "chefdata/Basics/Captions/lesson1.ttml".
Proof. vm_compute. reflexivity. Qed.

Lemma caption_path_candidates_witness :
  tttl_from_mp4 no_file ("chefdata/Basics" ++ "/Videos/" ++ "lesson1" ++ ".mp4")
  = "chefdata/Basics" ++ "/Captions/" ++ "lesson1" ++ ".ttml".
Proof.
  apply (caption_path_candidates no_file "chefdata/Basics" "lesson1");
    reflexivity.
Defined.

(** * Further properties of the chef *)

(** ** [make_request] *)

Lemma request_loop_all_fail (attempt : nat -> outcome) (fuel rc : nat) :
  (rc + fuel = max_retries)%nat -> (1 <= fuel)%nat ->
  (forall i, (rc <= i < max_retries)%nat -> attempt i = ConnectionError) ->
  request_loop attempt rc fuel = (None, fuel, seq (S rc) fuel).
Proof.
  unfold max_retries. revert rc. induction fuel as [|f IH]; intros rc Hsum Hf Hfail; [lia|].
  cbn [request_loop]. unfold max_retries. rewrite (Hfail rc) by lia.
  rewrite Nat.mul_1_r.
  destruct (Nat.leb_spec 5 (S rc)) as [Hle|Hlt].
  - replace f with 0%nat by lia. reflexivity.
  - rewrite (IH (S rc)) by (lia || (intros; apply Hfail; lia)). reflexivity.
Qed.

Lemma request_loop_first_response (attempt : nat -> outcome) (r : response)
    (fuel rc k : nat) :
  (rc + fuel = max_retries)%nat -> (rc <= k < max_retries)%nat ->
  (forall i, (rc <= i < k)%nat -> attempt i = ConnectionError) ->
  attempt k = Response r ->
  request_loop attempt rc fuel = (Some r, S (k - rc), seq (S rc) (k - rc)).
Proof.
  unfold max_retries. revert rc. induction fuel as [|f IH]; intros rc Hsum Hk Hfail Hr; [lia|].
  cbn [request_loop]. unfold max_retries.
  destruct (Nat.eq_dec rc k) as [<-|Hne].
  - rewrite Hr, Nat.sub_diag. reflexivity.
  - rewrite (Hfail rc) by lia. rewrite Nat.mul_1_r.
    destruct (Nat.leb_spec 5 (S rc)) as [Hle|Hlt]; [lia|].
    rewrite (IH (S rc)) by (lia || (intros; apply Hfail; lia) || exact Hr).
    replace (k - rc)%nat with (S (k - S rc)) by lia. reflexivity.
Qed.

(** Either the five attempts all fail, or a first response comes after
    [k < 5] failures. *)
Lemma attempts_cases (attempt : nat -> outcome) :
  (forall i, (0 <= i < max_retries)%nat -> attempt i = ConnectionError) \/
  exists k r, (0 <= k < max_retries)%nat /\
    (forall i, (0 <= i < k)%nat -> attempt i = ConnectionError) /\
    attempt k = Response r.
Proof.
  unfold max_retries.
  destruct (attempt 0) as [|r0] eqn:E0;
    [|right; exists 0%nat, r0; repeat split; (lia || auto)].
  destruct (attempt 1) as [|r1] eqn:E1;
    [|right; exists 1%nat, r1; repeat split; [lia|lia| |auto];
      intros i Hi; replace i with 0%nat by lia; auto].
  destruct (attempt 2) as [|r2] eqn:E2;
    [|right; exists 2%nat, r2; repeat split; [lia|lia| |auto];
      intros i Hi; destruct i as [|[|]]; (auto || lia)].
  destruct (attempt 3) as [|r3] eqn:E3;
    [|right; exists 3%nat, r3; repeat split; [lia|lia| |auto];
      intros i Hi; destruct i as [|[|[|]]]; (auto || lia)].
  destruct (attempt 4) as [|r4] eqn:E4;
    [|right; exists 4%nat, r4; repeat split; [lia|lia| |auto];
      intros i Hi; destruct i as [|[|[|[|]]]]; (auto || lia)].
  left. intros i Hi. destruct i as [|[|[|[|[|]]]]]; (auto || lia).
Qed.

(** X1: when every attempt raises a connection error or a timeout,
    [make_request] gives [None] after five attempts, having slept 1, 2, 3, 4
    and 5 seconds (the last sleep comes before giving up). *)
Theorem make_request_gives_up (attempt : nat -> outcome) :
  (forall i, (i < max_retries)%nat -> attempt i = ConnectionError) ->
  make_request attempt =
    {| rt_result := None; rt_attempts := 5; rt_sleeps := [1; 2; 3; 4; 5] |}.
Proof.
  intros Hfail. unfold make_request.
  rewrite (request_loop_all_fail attempt max_retries 0)
    by (reflexivity || (unfold max_retries; lia) || (intros; apply Hfail; lia)).
  reflexivity.
Qed.

(** X2: when the first [k < 5] attempts fail and the next one gets a
    response, [make_request] makes [k + 1] attempts, sleeps 1, ..., k
    seconds, and returns the response only if its status code is 200. *)
Theorem make_request_first_response (attempt : nat -> outcome) (k : nat)
    (r : response) :
  (k < max_retries)%nat ->
  (forall i, (i < k)%nat -> attempt i = ConnectionError) ->
  attempt k = Response r ->
  make_request attempt =
    {| rt_result := if Nat.eqb (status_code r) 200 then Some r else None;
       rt_attempts := S k;
       rt_sleeps := seq 1 k |}.
Proof.
  intros Hk Hfail Hr. unfold make_request.
  rewrite (request_loop_first_response attempt r max_retries 0 k)
    by (reflexivity || lia || (intros; apply Hfail; lia) || exact Hr).
  rewrite Nat.sub_0_r. reflexivity.
Qed.

(** X3: whatever the network does, [make_request] makes at most five
    attempts, sleeps 1, 2, ... seconds in turn (at most 15 seconds in all),
    and returns only a response with status code 200. *)
Theorem make_request_bounded (attempt : nat -> outcome) :
  let t := make_request attempt in
  (1 <= rt_attempts t <= max_retries)%nat /\
  rt_sleeps t = seq 1 (length (rt_sleeps t)) /\
  (length (rt_sleeps t) <= max_retries)%nat /\
  (forall r, rt_result t = Some r -> status_code r = 200%nat).
Proof.
  cbv zeta. unfold make_request.
  destruct (attempts_cases attempt) as [Hall | (k & r & Hk & Hfail & Hr)].
  - rewrite (request_loop_all_fail attempt max_retries 0)
      by (reflexivity || (unfold max_retries; lia) || exact Hall).
    cbn [rt_attempts rt_sleeps rt_result]. unfold max_retries.
    split; [lia|]. split; [reflexivity|]. split; [cbn; lia|].
    intros r H. discriminate H.
  - rewrite (request_loop_first_response attempt r max_retries 0 k)
      by (reflexivity || lia || exact Hfail || exact Hr).
    rewrite Nat.sub_0_r. cbn [rt_attempts rt_sleeps rt_result].
    rewrite length_seq. unfold max_retries in *.
    repeat split; try lia.
    intros r'. destruct (Nat.eqb_spec (status_code r) 200); [|discriminate].
    intros [= <-]. assumption.
Qed.

(** ** [get_text] *)

Lemma replace_aux_keeps_out (x : ascii) (old new : string) (skip : nat) (s : string) :
  has_char x s = false -> has_char x new = false ->
  has_char x (replace_aux old new skip s) = false.
Proof.
  revert skip. induction s as [|c s IH]; intros skip Hs Hn; [reflexivity|].
  cbn [has_char] in Hs. apply orb_false_iff in Hs as [Hc Hs].
  cbn [replace_aux]. destruct skip as [|k]; [|apply IH; assumption].
  destruct (String.prefix old (String c s)).
  - rewrite has_char_app, Hn. apply IH; assumption.
  - cbn [has_char]. rewrite Hc. apply IH; assumption.
Qed.

Lemma replace_aux_char_removed (c : ascii) (new : string) (skip : nat) (s : string) :
  has_char c new = false ->
  has_char c (replace_aux (String c "") new skip s) = false.
Proof.
  revert skip. induction s as [|x s IH]; intros skip Hn; [reflexivity|].
  cbn [replace_aux]. destruct skip as [|k]; [|apply IH; assumption].
  change (String.prefix (String c "") (String x s))
    with (if ascii_dec c x then String.prefix "" s else false).
  destruct (ascii_dec c x) as [<-|Hne].
  - replace (String.prefix "" s) with true by (destruct s; reflexivity).
    rewrite has_char_app, Hn. apply IH; assumption.
  - cbn [has_char]. rewrite IH by assumption.
    rewrite orb_false_r. apply Ascii.eqb_neq. congruence.
Qed.

Lemma lstrip_keeps_out (x : ascii) (s : string) :
  has_char x s = false -> has_char x (lstrip s) = false.
Proof.
  induction s as [|c s IH]; intros H; [reflexivity|].
  cbn [lstrip]. destruct (py_isspace c); [|exact H].
  apply IH. cbn [has_char] in H. apply orb_false_iff in H. apply H.
Qed.

Lemma rstrip_keeps_out (x : ascii) (s : string) :
  has_char x s = false -> has_char x (rstrip s) = false.
Proof.
  induction s as [|c s IH]; intros H; [reflexivity|].
  cbn [has_char] in H. apply orb_false_iff in H as [Hc Hs].
  cbn [rstrip]. destruct (String.eqb (rstrip s) "" && py_isspace c); [reflexivity|].
  cbn [has_char]. rewrite Hc, IH by exact Hs. reflexivity.
Qed.

Lemma rstrip_idem (s : string) : rstrip (rstrip s) = rstrip s.
Proof.
  induction s as [|c s IH]; [reflexivity|]. cbn [rstrip].
  destruct (String.eqb (rstrip s) "" && py_isspace c) eqn:E; [reflexivity|].
  cbn [rstrip]. rewrite IH, E. reflexivity.
Qed.

Lemma lstrip_rstrip_lstrip (s : string) :
  lstrip (rstrip (lstrip s)) = rstrip (lstrip s).
Proof.
  induction s as [|c s IH]; [reflexivity|]. cbn [lstrip].
  destruct (py_isspace c) eqn:Hc; [exact IH|].
  cbn [rstrip]. rewrite Hc, andb_false_r. cbn [lstrip]. rewrite Hc. reflexivity.
Qed.

Lemma py_strip_idem (s : string) : py_strip (py_strip s) = py_strip s.
Proof.
  unfold py_strip. rewrite lstrip_rstrip_lstrip. apply rstrip_idem.
Qed.

(** X4: the text [get_text] returns has no carriage return and no line feed
    left, and no surrounding whitespace: stripping it again changes nothing. *)
Theorem get_text_normalised (element : option string) :
  has_char "013" (get_text element) = false /\
  has_char "010" (get_text element) = false /\
  py_strip (get_text element) = get_text element.
Proof.
  destruct element as [t|]; [|repeat split; reflexivity].
  unfold get_text. split; [|split].
  - unfold py_strip. apply rstrip_keeps_out, lstrip_keeps_out.
    unfold py_replace. apply replace_aux_keeps_out; [|reflexivity].
    apply replace_aux_char_removed. reflexivity.
  - unfold py_strip. apply rstrip_keeps_out, lstrip_keeps_out.
    unfold py_replace. apply replace_aux_char_removed. reflexivity.
  - apply py_strip_idem.
Qed.

(** ** [crawl]: the lessons and topics dicts *)

(** The [href] of the last anchor whose text is [k], if any. *)
Fixpoint last_href (k : string) (lis : list anchor) : option (option string) :=
  match lis with
  | [] => None
  | None :: lis' => last_href k lis'
  | Some (t, h) :: lis' =>
      match last_href k lis' with
      | Some x => Some x
      | None => if String.eqb k t then Some h else None
      end
  end.

Lemma dict_get_set {V} (d : list (string * V)) (k k' : string) (v : V) :
  dict_get k (dict_set d k' v) = if String.eqb k k' then Some v else dict_get k d.
Proof.
  induction d as [|[k0 v0] d IH]; cbn [dict_set dict_get]; [reflexivity|].
  destruct (String.eqb_spec k' k0) as [<-|Hne]; cbn [dict_get].
  - destruct (String.eqb k k'); reflexivity.
  - rewrite IH. destruct (String.eqb_spec k k') as [->|]; [|reflexivity].
    apply String.eqb_neq in Hne. rewrite Hne. reflexivity.
Qed.

Lemma dict_set_keys_in {V} (d : list (string * V)) (k x : string) (v : V) :
  In x (map fst (dict_set d k v)) -> x = k \/ In x (map fst d).
Proof.
  induction d as [|[k0 v0] d IH]; cbn [dict_set map fst].
  - intros [<-|[]]. left. reflexivity.
  - destruct (String.eqb k k0); cbn [map fst In].
    + intros H. right. exact H.
    + intros [<-|H]; [right; left; reflexivity|].
      destruct (IH H); [left|right; right]; assumption.
Qed.

Lemma dict_set_nodup {V} (d : list (string * V)) (k : string) (v : V) :
  NoDup (map fst d) -> NoDup (map fst (dict_set d k v)).
Proof.
  induction d as [|[k0 v0] d IH]; cbn [dict_set map fst].
  - intros _. constructor; [intros []|constructor].
  - intros Hnd. inversion Hnd as [|? ? Hk0 Hd]; subst.
    destruct (String.eqb_spec k k0) as [<-|Hne]; cbn [map fst].
    + constructor; assumption.
    + constructor; [|apply IH; exact Hd].
      intros Hin. apply dict_set_keys_in in Hin as [->|]; [congruence|contradiction].
Qed.

Lemma crawl_lessons_from_spec (lis : list anchor) :
  forall d d', crawl_lessons_from d lis = Ok d' ->
  (NoDup (map fst d) -> NoDup (map fst d')) /\
  forall k, dict_get k d' =
    match last_href k lis with Some h => Some h | None => dict_get k d end.
Proof.
  induction lis as [|[[t h]|] lis IH]; intros d d' H; cbn [crawl_lessons_from] in H.
  - injection H as <-. split; [auto|reflexivity].
  - destruct (IH _ _ H) as [Hnd Hget]. split.
    + intros Hd. apply Hnd, dict_set_nodup, Hd.
    + intros k. rewrite Hget, dict_get_set. cbn [last_href].
      destruct (last_href k lis); [reflexivity|].
      destruct (String.eqb k t); reflexivity.
  - discriminate H.
Qed.

(** X5: when [crawl] has built the lessons dict, each lesson text is a key
    once, mapped to the [href] of the last item with that text. *)
Theorem crawl_lessons_last_href (lis : list anchor)
    (lessons : list (string * option string)) :
  crawl_lessons lis = Ok lessons ->
  NoDup (map fst lessons) /\ forall k, dict_get k lessons = last_href k lis.
Proof.
  intros H. destruct (crawl_lessons_from_spec lis [] lessons H) as [Hnd Hget].
  split; [apply Hnd; constructor|].
  intros k. rewrite Hget. destruct (last_href k lis); reflexivity.
Qed.

Lemma crawl_topics_from_spec (lis : list anchor) :
  forall d d', crawl_topics_from d lis = Ok d' ->
  (NoDup (map fst d) -> NoDup (map fst d')) /\
  forall k, dict_get k d' =
    if contains "Transcript" k then dict_get k d
    else match last_href k lis with Some h => Some h | None => dict_get k d end.
Proof.
  induction lis as [|[[t h]|] lis IH]; intros d d' H; cbn [crawl_topics_from] in H.
  - injection H as <-. split; [auto|]. intros k. destruct (contains _ k); reflexivity.
  - destruct (contains "Transcript" t) eqn:Ht; cbn [negb] in H;
      destruct (IH _ _ H) as [Hnd Hget]; split.
    + exact Hnd.
    + intros k. rewrite Hget. cbn [last_href].
      destruct (contains "Transcript" k) eqn:Hk; [reflexivity|].
      destruct (last_href k lis); [reflexivity|].
      destruct (String.eqb_spec k t) as [->|]; [congruence|reflexivity].
    + intros Hd. apply Hnd, dict_set_nodup, Hd.
    + intros k. rewrite Hget, dict_get_set. cbn [last_href].
      destruct (contains "Transcript" k) eqn:Hk.
      * destruct (String.eqb_spec k t) as [->|]; [congruence|reflexivity].
      * destruct (last_href k lis); [reflexivity|].
        destruct (String.eqb k t); reflexivity.
  - discriminate H.
Qed.

(** X6: when [crawl] has built the video archives dict, no key contains
    ["Transcript"], each other text is a key once, mapped to the [href] of
    the last item with that text. *)
Theorem crawl_topics_skip_transcripts (lis : list anchor)
    (topics : list (string * option string)) :
  crawl_topics lis = Ok topics ->
  NoDup (map fst topics) /\
  forall k, dict_get k topics =
    if contains "Transcript" k then None else last_href k lis.
Proof.
  intros H. destruct (crawl_topics_from_spec lis [] topics H) as [Hnd Hget].
  split; [apply Hnd; constructor|].
  intros k. rewrite Hget. destruct (contains "Transcript" k); [reflexivity|].
  destruct (last_href k lis); reflexivity.
Qed.

(** X7: reading either list of the course page raises [AttributeError]
    exactly when one of its items has no anchor, and succeeds otherwise. *)
Theorem crawl_items_without_anchor (lis : list anchor) :
  (crawl_lessons lis = Raise AttributeError <-> In None lis) /\
  (crawl_topics lis = Raise AttributeError <-> In None lis) /\
  (~ In None lis -> exists d1 d2, crawl_lessons lis = Ok d1 /\ crawl_topics lis = Ok d2).
Proof.
  unfold crawl_lessons, crawl_topics.
  assert (Hl : forall d, crawl_lessons_from d lis = Raise AttributeError <-> In None lis).
  { induction lis as [|[[t h]|] lis IH]; intros d; cbn [crawl_lessons_from In].
    - split; [discriminate|intros []].
    - rewrite IH. split; [right; assumption|intros [H|H]; [discriminate|assumption]].
    - split; [left; reflexivity|reflexivity]. }
  assert (Ht : forall d, crawl_topics_from d lis = Raise AttributeError <-> In None lis).
  { clear Hl. induction lis as [|[[t h]|] lis IH]; intros d; cbn [crawl_topics_from In].
    - split; [discriminate|intros []].
    - destruct (negb (contains "Transcript" t)); rewrite IH;
        (split; [right; assumption|intros [H|H]; [discriminate|assumption]]).
    - split; [left; reflexivity|reflexivity]. }
  assert (Hok : ~ In None lis -> forall d d0,
            (exists d1, crawl_lessons_from d lis = Ok d1) /\
            (exists d2, crawl_topics_from d0 lis = Ok d2)).
  { clear Hl Ht. induction lis as [|[[t h]|] lis IH]; intros Hn d d0; cbn [crawl_lessons_from crawl_topics_from].
    - split; eexists; reflexivity.
    - assert (Hn' : ~ In None lis) by (intros H; apply Hn; right; exact H).
      destruct (negb (contains "Transcript" t)); split.
      + exact (proj1 (IH Hn' (dict_set d t h) d0)).
      + exact (proj2 (IH Hn' d (dict_set d0 t h))).
      + exact (proj1 (IH Hn' (dict_set d t h) d0)).
      + exact (proj2 (IH Hn' d d0)).
    - exfalso. apply Hn. left. reflexivity. }
  split; [apply Hl|]. split; [apply Ht|].
  intros Hn. destruct (Hok Hn [] []) as [[d1 H1] [d2 H2]].
  exists d1, d2. split; assumption.
Qed.

(** ** [download_courses] *)

Lemma existsb_eqb_in (x : string) (l : list string) :
  existsb (String.eqb x) l = true <-> In x l.
Proof.
  rewrite existsb_exists. split.
  - intros (y & Hy & E). apply String.eqb_eq in E. subst. exact Hy.
  - intros H. exists x. split; [exact H|apply String.eqb_refl].
Qed.

Lemma download_loop_spec (get_ok : string -> bool)
    (items : list (string * option string)) :
  forall files fs fetched, download_loop get_ok files items = Some (fs, fetched) ->
  fs = (rev (map (fun p => zip_name (fst p)) fetched) ++ files)%list /\
  (forall k u, In (k, u) items -> In (zip_name k) fs) /\
  (forall k u, In (k, u) fetched -> In (k, u) items /\ ~ In (zip_name k) files) /\
  NoDup (map (fun p => zip_name (fst p)) fetched).
Proof.
  induction items as [|[lesson url] items IH]; intros files fs fetched H;
    cbn [download_loop] in H.
  - injection H as <- <-.
    split; [reflexivity|]. split; [intros ? ? []|]. split; [intros ? ? []|constructor].
  - destruct (existsb (String.eqb (zip_name lesson)) files) eqn:Ex; cbn [negb] in H.
    + destruct (IH files fs fetched H) as (Hfs & Hin & Hf & Hnd).
      split; [exact Hfs|]. split; [|split; [|exact Hnd]].
      * intros k u [[= <- <-]|Hk]; [|eapply Hin; exact Hk].
        rewrite Hfs. apply in_or_app. right. apply existsb_eqb_in. exact Ex.
      * intros k u Hk. destruct (Hf k u Hk) as [H1 H2]. split; [right; exact H1|exact H2].
    + destruct url as [u|]; [|discriminate H].
      destruct (get_ok u); [|discriminate H].
      destruct (download_loop get_ok (zip_name lesson :: files) items)
        as [[fs' fetched']|] eqn:Hl; [|discriminate H].
      injection H as <- <-.
      destruct (IH _ _ _ Hl) as (Hfs & Hin & Hf & Hnd). split.
      * rewrite Hfs. cbn [map fst rev]. rewrite <- app_assoc. reflexivity.
      * split; [|split].
        -- intros k u' [[= <- <-]|Hk]; [|eapply Hin; exact Hk].
           rewrite Hfs. apply in_or_app. right. left. reflexivity.
        -- intros k u' [[= <- <-]|Hk].
           ++ split; [left; reflexivity|].
              intros Hx. apply existsb_eqb_in in Hx. congruence.
           ++ destruct (Hf k u' Hk) as [H1 H2].
              split; [right; exact H1|]. intros Hx. apply H2. right. exact Hx.
        -- cbn [map fst]. constructor; [|exact Hnd].
           intros Hx. apply in_map_iff in Hx as ([k u'] & Hk & Hx).
           destruct (Hf k u' Hx) as [_ H2]. apply H2. left. symmetry. exact Hk.
Qed.

(** X8: when [download_courses] completes, the archive of every lesson and
    of every video topic is on disk, and every file that was there before
    is still there. *)
Theorem download_courses_complete (get_ok : string -> bool) (files : list string)
    (lessons zipped_videos : list (string * option string))
    (files' : list string) (fetched_lessons fetched_videos : list (string * option string)) :
  download_courses get_ok files lessons zipped_videos
    = Some (files', fetched_lessons, fetched_videos) ->
  (forall x, In x files -> In x files') /\
  (forall k u, In (k, u) lessons \/ In (k, u) zipped_videos -> In (zip_name k) files').
Proof.
  unfold download_courses.
  destruct (download_loop get_ok files lessons) as [[files1 fetched1]|] eqn:E1;
    [|discriminate].
  destruct (download_loop get_ok files1 zipped_videos) as [[files2 fetched2]|] eqn:E2;
    [|discriminate].
  intros [= <- <- <-].
  destruct (download_loop_spec _ _ _ _ _ E1) as (Hfs1 & Hin1 & _).
  destruct (download_loop_spec _ _ _ _ _ E2) as (Hfs2 & Hin2 & _).
  split.
  - intros x Hx. rewrite Hfs2, Hfs1. apply in_or_app. right. apply in_or_app. right. exact Hx.
  - intros k u [H|H]; [|eapply Hin2; exact H].
    rewrite Hfs2. apply in_or_app. right. eapply Hin1. exact H.
Qed.

(** X9: [download_courses] fetches an archive only when its file is not on
    disk and at most once per file name; a video topic that has the name of
    a lesson is never fetched, its [.zip] name being the lesson's. *)
Theorem download_courses_fetches_missing (get_ok : string -> bool) (files : list string)
    (lessons zipped_videos : list (string * option string))
    (files' : list string) (fetched_lessons fetched_videos : list (string * option string)) :
  download_courses get_ok files lessons zipped_videos
    = Some (files', fetched_lessons, fetched_videos) ->
  NoDup (map (fun p => zip_name (fst p)) (fetched_lessons ++ fetched_videos)) /\
  (forall k u, In (k, u) (fetched_lessons ++ fetched_videos) -> ~ In (zip_name k) files) /\
  (forall k u, In (k, u) fetched_videos -> ~ In k (map fst lessons)).
Proof.
  unfold download_courses.
  destruct (download_loop get_ok files lessons) as [[files1 fetched1]|] eqn:E1;
    [|discriminate].
  destruct (download_loop get_ok files1 zipped_videos) as [[files2 fetched2]|] eqn:E2;
    [|discriminate].
  intros [= <- <- <-].
  destruct (download_loop_spec _ _ _ _ _ E1) as (Hfs1 & Hin1 & Hf1 & Hnd1).
  destruct (download_loop_spec _ _ _ _ _ E2) as (Hfs2 & Hin2 & Hf2 & Hnd2).
  assert (Hnot1 : forall k u, In (k, u) fetched2 -> ~ In (zip_name k) files1)
    by (intros k u H; exact (proj2 (Hf2 k u H))).
  split; [|split].
  - rewrite map_app. apply NoDup_app; [exact Hnd1|exact Hnd2|].
    intros x Hx Hy. apply in_map_iff in Hy as ([k u] & <- & Hy).
    apply (Hnot1 k u Hy). rewrite Hfs1. apply in_or_app. left. apply in_rev.
    rewrite rev_involutive. exact Hx.
  - intros k u H. apply in_app_or in H as [H|H]; [exact (proj2 (Hf1 k u H))|].
    intros Hx. apply (Hnot1 k u H). rewrite Hfs1. apply in_or_app. right. exact Hx.
  - intros k u H Hk. apply in_map_iff in Hk as ([k' u'] & Hk & Hk').
    cbn [fst] in Hk. subst k'. apply (Hnot1 k u H). eapply Hin1. exact Hk'.
Qed.

Lemma download_loop_nothing_missing (get_ok : string -> bool)
    (items : list (string * option string)) (files : list string) :
  (forall k u, In (k, u) items -> In (zip_name k) files) ->
  download_loop get_ok files items = Some (files, []).
Proof.
  induction items as [|[lesson url] items IH]; intros H; [reflexivity|].
  cbn [download_loop].
  replace (existsb (String.eqb (zip_name lesson)) files) with true.
  - apply IH. intros k u Hk. eapply H. right. exact Hk.
  - symmetry. apply existsb_eqb_in. eapply H. left. reflexivity.
Qed.

(** X10: once [download_courses] has completed, a second run on the files
    it left makes no request at all: it fetches nothing and completes
    whatever the network does. *)
Theorem download_courses_second_run (get_ok : string -> bool) (files : list string)
    (lessons zipped_videos : list (string * option string))
    (files' : list string) (fetched_lessons fetched_videos : list (string * option string)) :
  download_courses get_ok files lessons zipped_videos
    = Some (files', fetched_lessons, fetched_videos) ->
  forall get_ok', download_courses get_ok' files' lessons zipped_videos = Some (files', [], []).
Proof.
  unfold download_courses.
  destruct (download_loop get_ok files lessons) as [[files1 fetched1]|] eqn:E1;
    [|discriminate].
  destruct (download_loop get_ok files1 zipped_videos) as [[files2 fetched2]|] eqn:E2;
    [|discriminate].
  intros [= <- <- <-] get_ok'.
  destruct (download_loop_spec _ _ _ _ _ E1) as (Hfs1 & Hin1 & _).
  destruct (download_loop_spec _ _ _ _ _ E2) as (Hfs2 & Hin2 & _).
  rewrite (download_loop_nothing_missing get_ok' lessons files2).
  - rewrite (download_loop_nothing_missing get_ok' zipped_videos files2) by exact Hin2.
    reflexivity.
  - intros k u H. rewrite Hfs2. apply in_or_app. right. eapply Hin1. exact H.
Qed.

(** ** [pre_run] *)

(** [make_request] gives [None] when no attempt gets a response with status
    code 200. *)
Lemma make_request_no_200 (attempt : nat -> outcome) :
  (forall i, (i < max_retries)%nat ->
     attempt i = ConnectionError \/
     exists r, attempt i = Response r /\ status_code r <> 200%nat) ->
  rt_result (make_request attempt) = None.
Proof.
  intros H. destruct (attempts_cases attempt) as [Hfail | (k & r & Hk & Hfail & Hr)].
  - unfold make_request.
    rewrite (request_loop_all_fail attempt max_retries 0)
      by (reflexivity || (unfold max_retries; lia) || (intros; apply Hfail; lia)).
    reflexivity.
  - unfold make_request.
    rewrite (request_loop_first_response attempt r max_retries 0 k)
      by (reflexivity || lia || (intros; apply Hfail; lia) || exact Hr).
    cbn [rt_result].
    destruct (H k ltac:(lia)) as [Hc | (r' & Hr' & Hs)]; rewrite Hr in *;
      [discriminate Hc|].
    injection Hr' as <-. apply Nat.eqb_neq in Hs. rewrite Hs. reflexivity.
Qed.

Lemma chef_download_courses_set (get_ok : string -> bool) (files : list string)
    (lessons zipped_videos : list (string * option string)) :
  chef_download_courses get_ok files
    {| self_lessons := Some lessons; self_zipped_videos := Some zipped_videos |}
  = Ok (download_courses get_ok files lessons zipped_videos).
Proof.
  unfold chef_download_courses, download_courses. cbn [self_lessons self_zipped_videos].
  destruct (download_loop get_ok files lessons) as [[files1 fl]|]; [|reflexivity].
  destruct (download_loop get_ok files1 zipped_videos) as [[files2 fv]|]; reflexivity.
Qed.

(** X11: when no request for the course page gets a response with status
    code 200, [crawl] returns early and leaves the chef as it was: on a
    fresh chef [pre_run] then raises [AttributeError] on the missing
    [self.lessons], before any download; on a chef whose attributes were
    set by an earlier crawl, it downloads the archives of those lists. *)
Theorem pre_run_page_unavailable (attempt : nat -> outcome)
    (parse : string -> res (list anchor * list anchor)) (get_ok : string -> bool)
    (files : list string) :
  (forall i, (i < max_retries)%nat ->
     attempt i = ConnectionError \/
     exists r, attempt i = Response r /\ status_code r <> 200%nat) ->
  pre_run attempt parse get_ok files fresh_chef = Raise AttributeError
  /\ (forall lessons zipped_videos,
        pre_run attempt parse get_ok files
          {| self_lessons := Some lessons; self_zipped_videos := Some zipped_videos |}
        = Ok (download_courses get_ok files lessons zipped_videos)).
Proof.
  intros H.
  assert (Hc : forall self, crawl attempt parse self = Ok self).
  { intros self. unfold crawl, download_page. rewrite (make_request_no_200 attempt H).
    reflexivity. }
  split.
  - unfold pre_run. rewrite Hc. reflexivity.
  - intros lessons zipped_videos. unfold pre_run. rewrite Hc. cbn [bind].
    apply chef_download_courses_set.
Qed.

(** ** [get_teacher_resources] *)

Definition pdf_of (f : string * bool) : string := pdf_file_path (fst f).

Lemma convert_loop_no_libreoffice (converts : string -> bool)
    (existing : list string) (files : list (string * bool)) :
  forall acc,
  convert_loop false converts existing acc files = None <->
  exists fp, In (fp, true) files /\ ~ In (pdf_file_path fp) existing.
Proof.
  induction files as [|[fp is_file] files IH]; intros acc; cbn [convert_loop].
  - split; [discriminate|intros (? & [] & _)].
  - destruct (existsb (String.eqb (pdf_file_path fp)) existing) eqn:Ex.
    + rewrite andb_false_r. assert (Hin : In (pdf_file_path fp) existing)
        by (apply existsb_eqb_in; exact Ex).
      rewrite IH. split.
      * intros (fp' & H1 & H2). exists fp'. split; [right; exact H1|exact H2].
      * intros (fp' & [[= -> _]|H1] & H2); [contradiction|].
        exists fp'. split; assumption.
    + assert (Hout : ~ In (pdf_file_path fp) existing)
        by (intros Hx; apply existsb_eqb_in in Hx; congruence).
      destruct is_file; cbn [andb negb].
      * split; [intros _; exists fp; split; [left; reflexivity|exact Hout]|reflexivity].
      * rewrite IH. split.
        -- intros (fp' & H1 & H2). exists fp'. split; [right; exact H1|exact H2].
        -- intros (fp' & [[=]|H1] & H2). exists fp'. split; assumption.
Qed.

(** X12: without LibreOffice, [get_teacher_resources] exits exactly when a
    walked regular file has no PDF in [chefdata/teacher_files]. *)
Theorem teacher_resources_exit_without_libreoffice (converts : string -> bool)
    (existing : list string) (files : list (string * bool)) :
  get_teacher_resources false converts existing files = None <->
  exists fp, In (fp, true) files /\ ~ In (pdf_file_path fp) existing.
Proof.
  unfold get_teacher_resources. rewrite <- (convert_loop_no_libreoffice converts existing files []).
  destruct (convert_loop false converts existing [] files); split; (discriminate || reflexivity).
Qed.

Lemma convert_loop_first_run (converts : string -> bool) (files : list (string * bool)) :
  forall existing acc,
  NoDup (map pdf_of files) ->
  (forall f, In f files -> ~ In (pdf_of f) existing) ->
  convert_loop true converts existing acc files = Some acc.
Proof.
  induction files as [|[fp is_file] files IH]; intros existing acc Hnd Hnone;
    cbn [convert_loop]; [reflexivity|].
  inversion Hnd as [|? ? Hfp Hnd']; subst.
  replace (existsb (String.eqb (pdf_file_path fp)) existing) with false
    by (symmetry; apply not_true_iff_false; rewrite existsb_eqb_in;
        exact (Hnone (fp, is_file) (or_introl eq_refl))).
  assert (Hrest : forall f, In f files -> ~ In (pdf_of f) existing)
    by (intros f Hf; apply Hnone; right; exact Hf).
  destruct is_file; cbn [andb negb]; [|apply IH; assumption].
  apply IH; [exact Hnd'|]. intros f Hf.
  destruct (converts fp); [|apply Hrest; exact Hf].
  intros [Heq|Hx]; [|exact (Hrest f Hf Hx)].
  apply Hfp. change (pdf_of (fp, true)) with (pdf_file_path fp).
  rewrite Heq. apply in_map. exact Hf.
Qed.

(** X13: on a first run, when no walked file has its PDF yet and the PDF
    names of the walked files are distinct, LibreOffice being installed, the
    teacher resources topic gets no document: the PDFs converted in this
    run are not listed. *)
Theorem teacher_resources_first_run_empty (converts : string -> bool)
    (existing : list string) (files : list (string * bool)) :
  NoDup (map pdf_of files) ->
  (forall f, In f files -> ~ In (pdf_of f) existing) ->
  get_teacher_resources true converts existing files = Some [].
Proof.
  intros Hnd Hnone. unfold get_teacher_resources.
  rewrite convert_loop_first_run by assumption. reflexivity.
Qed.

Lemma convert_loop_all_converted (libreoffice : bool) (converts : string -> bool)
    (existing : list string) (files : list (string * bool)) :
  forall acc,
  (forall f, In f files -> In (pdf_of f) existing) ->
  convert_loop libreoffice converts existing acc files
  = Some (acc ++ map pdf_of files)%list.
Proof.
  induction files as [|[fp is_file] files IH]; intros acc Hall; cbn [convert_loop].
  - rewrite app_nil_r. reflexivity.
  - replace (existsb (String.eqb (pdf_file_path fp)) existing) with true
      by (symmetry; apply existsb_eqb_in; exact (Hall (fp, is_file) (or_introl eq_refl))).
    rewrite andb_false_r. rewrite IH by (intros f Hf; apply Hall; right; exact Hf).
    rewrite <- app_assoc. reflexivity.
Qed.

Lemma insert_sorted_perm (s : string) (l : list string) :
  Permutation (insert_sorted s l) (s :: l).
Proof.
  induction l as [|x l IH]; cbn [insert_sorted]; [reflexivity|].
  destruct (String.leb x s); [|reflexivity].
  rewrite IH. apply perm_swap.
Qed.

Lemma insert_sorted_sorted (s : string) (l : list string) :
  Sorted (fun a b => String.leb a b = true) l ->
  Sorted (fun a b => String.leb a b = true) (insert_sorted s l).
Proof.
  induction l as [|x l IH]; intros Hs; cbn [insert_sorted]; [repeat constructor|].
  destruct (String.leb x s) eqn:E.
  - apply Sorted_inv in Hs as [Hl Hx]. constructor; [apply IH; exact Hl|].
    destruct l as [|y l]; cbn [insert_sorted]; [constructor; exact E|].
    destruct (String.leb y s); constructor; [|exact E].
    apply HdRel_inv in Hx. exact Hx.
  - constructor; [exact Hs|]. constructor.
    destruct (String.leb_total s x) as [H|H]; [exact H|congruence].
Qed.

Lemma py_sorted_spec (l : list string) :
  Permutation (py_sorted l) l /\ Sorted (fun a b => String.leb a b = true) (py_sorted l).
Proof.
  unfold py_sorted. split.
  - apply Permutation_trans with (rev l); [|apply Permutation_sym, Permutation_rev].
    induction (rev l) as [|x r IH]; cbn [fold_right]; [reflexivity|].
    rewrite insert_sorted_perm, IH. reflexivity.
  - induction (rev l) as [|x r IH]; cbn [fold_right]; [constructor|].
    apply insert_sorted_sorted. exact IH.
Qed.

Lemma teacher_documents_paths (index : nat) (pdfs : list string) :
  map doc_path (teacher_documents index pdfs) = pdfs.
Proof.
  revert index. induction pdfs as [|p pdfs IH]; intros index; [reflexivity|].
  cbn [teacher_documents map doc_path]. rewrite IH. reflexivity.
Qed.

(** X14: when every walked file already has its PDF, nothing is converted
    and the topic lists one document per walked file (a PDF shared by two
    files is listed twice), in ascending order of PDF path. *)
Theorem teacher_resources_rerun (libreoffice : bool) (converts : string -> bool)
    (existing : list string) (files : list (string * bool)) :
  (forall f, In f files -> In (pdf_of f) existing) ->
  exists docs, get_teacher_resources libreoffice converts existing files = Some docs /\
    Permutation (map doc_path docs) (map pdf_of files) /\
    Sorted (fun a b => String.leb a b = true) (map doc_path docs).
Proof.
  intros Hall. unfold get_teacher_resources.
  rewrite convert_loop_all_converted by exact Hall. cbn [app].
  eexists. split; [reflexivity|]. rewrite teacher_documents_paths.
  apply py_sorted_spec.
Qed.

(** ** [construct_channel] *)

Lemma nth_error_skipn {A} (l : list A) (n : nat) (v : A) :
  nth_error l n = Some v -> skipn n l = v :: skipn (S n) l.
Proof.
  revert l. induction n as [|n IH]; intros [|x l] H; cbn in H |- *; try discriminate.
  - injection H as ->. reflexivity.
  - apply IH. exact H.
Qed.

Lemma course_loop_spec {T} (course : string -> string -> res T)
    (f : string -> string -> T) (video_files : list string) :
  (forall l v, course l v = Ok (f l v)) ->
  forall lessons count, (count <= length video_files)%nat ->
  course_loop T course video_files count lessons =
    if Nat.ltb (length video_files) (count + length lessons)
    then Raise IndexError
    else Ok (map (fun p => f (fst p) (snd p))
                 (combine lessons (skipn count video_files))).
Proof.
  intros Hc lessons. induction lessons as [|l lessons IH]; intros count Hle;
    cbn [course_loop length].
  - rewrite Nat.add_0_r. destruct (Nat.ltb_spec (length video_files) count); [lia|].
    reflexivity.
  - destruct (nth_error video_files count) as [v|] eqn:Hn.
    + cbn [bind]. rewrite Hc. cbn [bind].
      assert (Hlt : (count < length video_files)%nat)
        by (apply nth_error_Some; congruence).
      rewrite (IH (S count)) by lia.
      replace (count + S (length lessons))%nat with (S count + length lessons)%nat by lia.
      destruct (Nat.ltb (length video_files) (S count + length lessons)); [reflexivity|].
      rewrite (nth_error_skipn _ _ _ Hn). reflexivity.
    + apply nth_error_None in Hn.
      destruct (Nat.ltb_spec (length video_files) (count + S (length lessons))); [reflexivity|lia].
Qed.

(** X15: when every course can be built, [construct_channel] pairs the
    lessons with the video archives by position (the [i]-th lesson with the
    [i]-th archive, whatever their names), and raises [IndexError] when
    there are fewer video archives than lessons. *)
Theorem construct_channel_pairs_by_position {T} (course : string -> string -> res T)
    (f : string -> string -> T) (lessons zipped_videos : list (string * option string))
    (teacher : option (list document)) :
  (forall l v, course l v = Ok (f l v)) ->
  construct_channel T course lessons zipped_videos teacher =
    if Nat.ltb (length zipped_videos) (length lessons) then Raise IndexError
    else Ok (match teacher with
             | Some docs =>
                 Some (map (fun p => f (fst p) (snd p))
                         (combine (map fst lessons) (map fst zipped_videos)), docs)
             | None => None
             end).
Proof.
  intros Hc. unfold construct_channel.
  rewrite (course_loop_spec course f (map fst zipped_videos) Hc (map fst lessons) 0)
    by lia.
  rewrite !length_map. cbn [Nat.add skipn].
  destruct (Nat.ltb (length zipped_videos) (length lessons)); reflexivity.
Qed.

(** ** Outline walker and [get_course] *)

Lemma concat_res_src {A B} (f : A -> res (list B)) (l : list A) (r : list B) :
  concat_res f l = Ok r ->
  forall y, In y r -> exists x ys, In x l /\ f x = Ok ys /\ In y ys.
Proof.
  revert r. induction l as [|a l IH]; intros r H y Hy; cbn [concat_res] in H.
  - injection H as <-. destruct Hy.
  - destruct (f a) as [ys|e] eqn:Ha; [|discriminate H]. cbn [bind] in H.
    destruct (concat_res f l) as [zs|e] eqn:Hl; [|discriminate H]. cbn [bind] in H.
    injection H as <-. apply in_app_or in Hy as [Hy|Hy].
    + exists a, ys. split; [left; reflexivity|split; assumption].
    + destruct (IH zs eq_refl y Hy) as (x & xs & Hx & Hfx & Hyx).
      exists x, xs. split; [right; exact Hx|split; assumption].
Qed.

Lemma process_video_videos (path_exists : string -> bool) (list_of_mp4s : list string)
    (level1 : node) (iv : nat * node) (ys : list child) (v : video) :
  process_video path_exists list_of_mp4s level1 iv = Ok ys -> In (CVideo v) ys ->
  In (v_path v) list_of_mp4s /\ v_caption v = tttl_from_mp4 path_exists (v_path v).
Proof.
  destruct iv as [idx vn]. unfold process_video.
  destruct (has_tag "video" vn); [|intros [= <-] []].
  destruct (matching_mp4s list_of_mp4s (get "fileName" vn)) as [ps|e] eqn:Hm;
    cbn [bind]; [|discriminate].
  destruct ps as [|p ps]; [intros [= <-] []|].
  intros [= <-] [Hv|[]]. injection Hv as <-. cbn [v_path v_caption].
  split; [|reflexivity].
  unfold matching_mp4s in Hm. destruct (get "fileName" vn) as [frag|].
  - injection Hm as Hm. apply (proj1 (filter_In (ends_with frag) p list_of_mp4s)).
    rewrite Hm. left. reflexivity.
  - destruct list_of_mp4s; discriminate.
Qed.

Lemma process_level1_videos (path_exists : string -> bool) (list_of_mp4s : list string)
    (objectives : list node) (level0_name : string) (level1 : node)
    (ys : list child) (v : video) :
  process_level1 path_exists list_of_mp4s objectives level0_name level1 = Ok ys ->
  In (CVideo v) ys ->
  In (v_path v) list_of_mp4s /\ v_caption v = tttl_from_mp4 path_exists (v_path v).
Proof.
  unfold process_level1.
  destruct (opt_eqb (get "name" level1) (Some "Knowledge check")).
  - destruct (get_exercise_node _ _ _); cbn [bind]; [|discriminate].
    intros [= <-] [H|[]]. discriminate H.
  - destruct (children level1) as [|k ks]; [intros [= <-] []|].
    intros H Hv. destruct (concat_res_src _ _ _ H _ Hv) as (iv & zs & _ & Hiv & Hz).
    exact (process_video_videos _ _ _ _ _ _ Hiv Hz).
Qed.

(** What [walk_level0] tells of the sub-topics it returns. *)
Definition subtopic_ok (path_exists : string -> bool) (list_of_mp4s : list string)
    (level0 : node) (st : subtopic) : Prop :=
  st_title st = or_empty (get "name" level0) /\
  ~ In (st_title st) discarded /\
  (2 <= length (children level0))%nat /\
  forall v, In (CVideo v) (st_children st) ->
    In (v_path v) list_of_mp4s /\ v_caption v = tttl_from_mp4 path_exists (v_path v).

Lemma walk_level0_subtopics (path_exists : string -> bool) (list_of_mp4s : list string)
    (objectives : list node) (level0 : node) (subs : list subtopic) :
  walk_level0 path_exists list_of_mp4s objectives level0 = Ok subs ->
  forall st, In st subs -> subtopic_ok path_exists list_of_mp4s level0 st.
Proof.
  unfold walk_level0.
  destruct (existsb (String.eqb (or_empty (get "name" level0))) discarded) eqn:Hd;
    [intros [= <-] _ []|].
  destruct (Nat.leb_spec (length (children level0)) 1) as [Hle|Hgt];
    [intros [= <-] _ []|].
  destruct (index0 (children level0)) as [first|e]; cbn [bind]; [|discriminate].
  destruct (index0 (children first)) as [d|e]; cbn [bind]; [|discriminate].
  destruct (concat_res _ (tl (children level0))) as [kids|e] eqn:Hk;
    cbn [bind]; [|discriminate].
  intros [= <-] st [<-|[]]. unfold subtopic_ok. cbn [st_title st_children].
  split; [reflexivity|]. split; [|split; [lia|]].
  - intros Hin. apply not_true_iff_false in Hd. apply Hd.
    apply existsb_exists. exists (or_empty (get "name" level0)).
    split; [exact Hin|apply String.eqb_refl].
  - intros v Hv. destruct (concat_res_src _ _ _ Hk _ Hv) as (l1 & ys & _ & Hl1 & Hy).
    exact (process_level1_videos _ _ _ _ _ _ _ Hl1 Hy).
Qed.

Lemma walk_pages_subtopics (path_exists : string -> bool) (list_of_mp4s : list string)
    (page : node) (subs : list subtopic) :
  walk_pages path_exists list_of_mp4s page = Ok subs ->
  forall st, In st subs -> exists level0, In level0 (findall "level0" page) /\
    subtopic_ok path_exists list_of_mp4s level0 st.
Proof.
  unfold walk_pages. intros H st Hst.
  destruct (concat_res_src _ _ _ H _ Hst) as (l0 & ys & Hl0 & Hw & Hy).
  exists l0. split; [exact Hl0|]. exact (walk_level0_subtopics _ _ _ _ _ Hw _ Hy).
Qed.

(** X16: every sub-topic of the outline comes from a [level0] element of
    [pages.xml] that has at least two child nodes; it bears that element's
    name, which is neither [Homepage] nor [Print your certificate]. *)
Theorem walk_pages_subtopic_origin (path_exists : string -> bool)
    (list_of_mp4s : list string) (page : node) (subs : list subtopic) :
  walk_pages path_exists list_of_mp4s page = Ok subs ->
  forall st, In st subs -> exists level0,
    In level0 (findall "level0" page) /\
    (2 <= length (children level0))%nat /\
    st_title st = or_empty (get "name" level0) /\
    ~ In (st_title st) discarded.
Proof.
  intros H st Hst. destruct (walk_pages_subtopics _ _ _ _ H st Hst) as (l0 & Hl0 & Hok).
  destruct Hok as (Ht & Hd & Hlen & _). exists l0. repeat split; assumption.
Qed.

Lemma substring_app_l (a b : string) (m : nat) :
  substring (String.length a) m (a ++ b) = substring 0 m b.
Proof. induction a as [|c a IH]; [reflexivity|]. exact IH. Qed.

Lemma substring_whole (s : string) : substring 0 (String.length s) s = s.
Proof. induction s as [|c s IH]; [reflexivity|]. cbn. rewrite IH. reflexivity. Qed.

Lemma substring_split (s : string) (k : nat) :
  (k <= String.length s)%nat ->
  substring 0 k s ++ substring k (String.length s - k) s = s.
Proof.
  revert k. induction s as [|c s IH]; intros k Hk.
  - destruct k; reflexivity.
  - destruct k as [|k].
    + cbn [substring String.append]. rewrite Nat.sub_0_r.
      change (String c (substring 0 (String.length s) s) = String c s).
      rewrite substring_whole. reflexivity.
    + cbn [String.length] in Hk |- *. rewrite Nat.sub_succ.
      cbn [substring String.append]. rewrite IH by lia. reflexivity.
Qed.

Lemma ends_with_app (suffix p : string) : ends_with suffix (p ++ suffix) = true.
Proof.
  unfold ends_with. rewrite str_length_app.
  replace (String.length p + String.length suffix - String.length suffix)%nat
    with (String.length p) by lia.
  rewrite substring_app_l, substring_whole, String.eqb_refl.
  apply andb_true_intro. split; [apply Nat.leb_le; lia|reflexivity].
Qed.

Lemma ends_with_inv (suffix s : string) :
  ends_with suffix s = true -> exists p, s = p ++ suffix.
Proof.
  unfold ends_with. intros H. apply andb_true_iff in H as [Hle Heq].
  apply Nat.leb_le in Hle. apply String.eqb_eq in Heq.
  set (k := (String.length s - String.length suffix)%nat) in *.
  assert (Hm : String.length suffix = (String.length s - k)%nat) by (unfold k; lia).
  rewrite Hm in Heq. exists (substring 0 k s). rewrite <- Heq.
  symmetry. apply substring_split. unfold k. lia.
Qed.

Lemma ends_with_app_l (suffix x s : string) :
  ends_with suffix s = true -> ends_with suffix (x ++ s) = true.
Proof.
  intros H. destruct (ends_with_inv _ _ H) as [p ->].
  rewrite <- str_app_assoc. apply ends_with_app.
Qed.

Lemma py_join_ends_with (suffix a b : string) :
  ends_with suffix b = true -> ends_with suffix (py_join a b) = true.
Proof.
  intros H. unfold py_join.
  destruct (String.prefix "/" b); [exact H|].
  destruct (String.eqb a "" || ends_with "/" a); [apply ends_with_app_l; exact H|].
  rewrite <- str_app_assoc. apply ends_with_app_l. exact H.
Qed.

Lemma list_mp4s_spec (walk : walk_listing) (p : string) :
  In p (list_mp4s walk) ->
  ends_with ".mp4" p = true /\
  exists path files name,
    In (path, files) walk /\ In (name, true) files /\
    ends_with ".mp4" name = true /\ p = py_join path name.
Proof.
  unfold list_mp4s. intros H. apply in_flat_map in H as ([path files] & Hw & Hp).
  apply in_map_iff in Hp as ([name isf] & <- & Hf).
  apply filter_In in Hf as [Hf Hc]. cbn [fst snd] in Hc |- *.
  apply andb_true_iff in Hc as [-> Hmp4].
  split; [apply py_join_ends_with; exact Hmp4|].
  exists path, files, name. repeat split; assumption.
Qed.

Lemma tttl_from_mp4_ttml (path_exists : string -> bool) (mp4_file : string) :
  ends_with ".ttml" (tttl_from_mp4 path_exists mp4_file) = true.
Proof.
  unfold tttl_from_mp4.
  destruct (negb _).
  - apply ends_with_app.
  - change "_Video_cc.ttml" with ("_Video_cc" ++ ".ttml").
    rewrite <- str_app_assoc. apply ends_with_app.
Qed.

(** X18: every video of the topic [get_course] returns is a file found by
    walking the video directory, its path ends with [.mp4], and its
    subtitle file is [tttl_from_mp4] of that path and ends with [.ttml]. *)
Theorem get_course_videos (path_exists : string -> bool) (walk : string -> walk_listing)
    (metadata : option node) (page : node) (zip_video_file : string) (t : topic) :
  get_course path_exists walk metadata page zip_video_file = Ok t ->
  forall st v, In st (t_children t) -> In (CVideo v) (st_children st) ->
  In (v_path v) (list_mp4s (walk (video_dir zip_video_file))) /\
  ends_with ".mp4" (v_path v) = true /\
  v_caption v = tttl_from_mp4 path_exists (v_path v) /\
  ends_with ".ttml" (v_caption v) = true.
Proof.
  unfold get_course. destruct metadata as [mt|]; cbn [bind]; [|discriminate].
  destruct (read_manifest mt) as [[lt ld]|e]; cbn [bind]; [|discriminate].
  destruct (xd_replace " " "_" lt) as [sid|e]; cbn [bind]; [|discriminate].
  destruct (walk_pages _ _ page) as [subs|e] eqn:Hw; cbn [bind]; [|discriminate].
  intros [= <-] st v Hst Hv. cbn [t_children] in Hst.
  destruct (walk_pages_subtopics _ _ _ _ Hw st Hst) as (l0 & _ & _ & _ & _ & Hvid).
  destruct (Hvid v Hv) as [Hin Hcap].
  split; [exact Hin|]. split; [apply (list_mp4s_spec _ _ Hin)|].
  split; [exact Hcap|]. rewrite Hcap. apply tttl_from_mp4_ttml.
Qed.

(** ** Quizzes and exercises *)

Lemma opt_eqb_true (a b : option string) : opt_eqb a b = true <-> a = b.
Proof.
  destruct a as [x|], b as [y|]; cbn [opt_eqb];
    try (split; [discriminate|intros [=]]); [|split; reflexivity].
  rewrite String.eqb_eq. split; [intros ->; reflexivity|intros [= ->]; reflexivity].
Qed.

Lemma quiz_item_correct_in_answers (objective item : node) (ys : list question) :
  quiz_item objective item = Ok ys ->
  forall q, In q ys -> In (q_correct q) (q_answers q).
Proof.
  unfold quiz_item.
  destruct (opt_eqb (get "type" item) (Some "choice")); [|intros [= <-] _ []].
  destruct (find "prompt" item) as [prompt|]; [|intros [= <-] _ []].
  destruct (index0 (map text_of (filter is_flagged (findall "choice" item))))
    as [correct|e] eqn:Hc; cbn [bind]; [|discriminate].
  intros [= <-] q [<-|[]]. cbn [q_correct q_answers].
  destruct (filter is_flagged (findall "choice" item)) as [|c cs] eqn:Hf;
    cbn [map index0] in Hc; [discriminate|]. injection Hc as <-.
  apply in_map. apply (proj1 (filter_In is_flagged c (findall "choice" item))).
  rewrite Hf. left. reflexivity.
Qed.

(** X20: in every exercise [get_exercise_node] builds, the correct answer of
    each question is one of the question's answers. *)
Theorem exercise_correct_among_answers (idx : option string) (objectives : list node)
    (lesson : string) (ex : exercise) :
  get_exercise_node idx objectives lesson = Ok ex ->
  forall q, In q (ex_questions ex) -> In (q_correct q) (q_answers q).
Proof.
  unfold get_exercise_node.
  destruct (index0 _) as [objective|e]; cbn [bind]; [|discriminate].
  destruct (get_quiz_from_objective objective) as [qs|e] eqn:Hq; cbn [bind]; [|discriminate].
  intros [= <-] q Hin. cbn [ex_questions] in Hin.
  unfold get_quiz_from_objective in Hq.
  destruct (concat_res_src _ _ _ Hq q Hin) as (item & ys & _ & Hi & Hy).
  exact (quiz_item_correct_in_answers _ _ _ Hi q Hy).
Qed.

(** X21: a knowledge check whose [objectives] attribute matches the [id] of
    no objective makes [get_exercise_node] raise [IndexError]. *)
Theorem exercise_unknown_objective (idx : option string) (objectives : list node)
    (lesson : string) :
  (forall o, In o objectives -> get "id" o <> idx) ->
  get_exercise_node idx objectives lesson = Raise IndexError.
Proof.
  intros Hno. unfold get_exercise_node.
  replace (filter (fun o => opt_eqb (get "id" o) idx) objectives) with (@nil node);
    [reflexivity|].
  symmetry. induction objectives as [|o os IH]; [reflexivity|]. cbn [filter].
  replace (opt_eqb (get "id" o) idx) with false.
  - apply IH. intros o' Ho'. apply Hno. right. exact Ho'.
  - symmetry. apply not_true_iff_false. rewrite opt_eqb_true.
    apply Hno. left. reflexivity.
Qed.

(** ** Namespaces *)

(** No element of the tree has a namespace. *)
Fixpoint ns_free (n : node) : bool :=
  match n with
  | Element ns _ _ _ kids => String.eqb ns "" && forallb ns_free kids
  | _ => true
  end.

Lemma strip_ns_prefix_ns_free (t : node) : ns_free (strip_ns_prefix t) = true.
Proof.
  induction t as [ns local attrs text kids IH| |] using node_ind'; [|reflexivity|reflexivity].
  cbn [strip_ns_prefix ns_free]. apply andb_true_intro. split.
  - destruct (String.eqb_spec ns "") as [->|]; reflexivity.
  - apply forallb_forall. intros k Hk. apply in_map_iff in Hk as (k0 & <- & Hk0).
    rewrite Forall_forall in IH. apply IH. exact Hk0.
Qed.

Lemma strip_ns_prefix_fixes_ns_free (t : node) :
  ns_free t = true -> strip_ns_prefix t = t.
Proof.
  induction t as [ns local attrs text kids IH| |] using node_ind'; [|reflexivity|reflexivity].
  cbn [strip_ns_prefix ns_free]. intros H. apply andb_true_iff in H as [Hns Hk].
  apply String.eqb_eq in Hns. subst ns. cbn [String.eqb].
  f_equal. rewrite <- map_id. apply map_ext_in. intros k Hin.
  rewrite Forall_forall in IH. apply IH; [exact Hin|].
  rewrite forallb_forall in Hk. apply Hk. exact Hin.
Qed.

(** X22: after [strip_ns_prefix] no element of the tree has a namespace, and
    the trees it leaves unchanged are exactly those without namespaces. *)
Theorem strip_ns_prefix_clears_namespaces (t : node) :
  ns_free (strip_ns_prefix t) = true /\
  (strip_ns_prefix t = t <-> ns_free t = true).
Proof.
  split; [apply strip_ns_prefix_ns_free|]. split.
  - intros H. rewrite <- H. apply strip_ns_prefix_ns_free.
  - apply strip_ns_prefix_fixes_ns_free.
Qed.

(** ** Sub-topic descriptions *)

(** X23: a [level0] element that is not discarded and has at least two
    child nodes, the first of which has no child node (an empty element, a
    comment or a processing instruction), makes the walk raise [IndexError]
    on [levels1[0].getchildren()[0]]. *)
Theorem level0_description_missing (path_exists : string -> bool)
    (list_of_mp4s : list string) (objectives : list node) (level0 first : node)
    (rest : list node) :
  ~ In (or_empty (get "name" level0)) discarded ->
  children level0 = first :: rest -> rest <> [] -> children first = [] ->
  walk_level0 path_exists list_of_mp4s objectives level0 = Raise IndexError.
Proof.
  intros Hd Hk Hr Hf. unfold walk_level0.
  replace (existsb (String.eqb (or_empty (get "name" level0))) discarded) with false.
  - rewrite Hk. destruct rest as [|r rest]; [contradiction|].
    cbn [length Nat.leb index0 bind]. rewrite Hf. reflexivity.
  - symmetry. apply not_true_iff_false. intros H. apply Hd.
    apply existsb_exists in H as (x & Hx & E). apply String.eqb_eq in E.
    rewrite E. exact Hx.
Qed.

(** ** The video directory *)

(** X24: for an archive name without ["/"], the directory walked for its
    videos is the one it is extracted to when the name has no ["."]; when
    the name has an extension [a.e] (a dot-free [e] after a stem with a
    character other than ["."]), the walked directory is [chefdata/a],
    not the extraction directory [chefdata/a.e]. *)
Theorem video_dir_vs_extract_dir (zip_video_file a e : string) :
  has_char "/" zip_video_file = false ->
  (has_char "." zip_video_file = false ->
   video_dir zip_video_file = extract_dir zip_video_file) /\
  (zip_video_file = a ++ "." ++ e -> has_char "." e = false -> has_non_dot a = true ->
   video_dir zip_video_file = "chefdata/" ++ a /\
   video_dir zip_video_file <> extract_dir zip_video_file).
Proof.
  intros Hs. unfold video_dir, extract_dir, splitext, basename.
  rewrite (split_last_none "/" zip_video_file Hs). split.
  - intros Hd. rewrite (split_last_none "." zip_video_file Hd). cbn [fst].
    rewrite (split_last_none "/" zip_video_file Hs). reflexivity.
  - intros -> He Ha. change ("." ++ e) with (String "." e).
    rewrite split_last_app by exact He. rewrite Ha. cbn [fst String.append].
    rewrite has_char_app in Hs. apply orb_false_iff in Hs as [Hsa _].
    rewrite (split_last_none "/" a Hsa). split; [reflexivity|].
    intros H. injection H as H. apply (f_equal String.length) in H.
    rewrite str_length_app in H. cbn [String.length] in H. lia.
Qed.

(** ** Repeated manifest tags *)

(** The element is a [t] element (after namespace stripping). *)
Definition local_is (t : string) (k : node) : bool :=
  match k with
  | Element _ l _ _ _ => String.eqb l t
  | _ => false
  end.

(** The value [push_data] leaves under a key that held [o]. *)
Definition push_value (o : option xd) (v : xd) : xd :=
  match o with
  | None => v
  | Some (XList l) => XList (l ++ [v])
  | Some v0 => XList [v0; v]
  end.

Definition pushes (o : option xd) (vs : list xd) : option xd :=
  fold_left (fun o v => Some (push_value o v)) vs o.

Lemma lookup_push_same (es : list (string * xd)) (k : string) (v : xd) :
  lookup k (push_data es k v) = Some (push_value (lookup k es) v).
Proof.
  induction es as [|[k' v0] es IH]; cbn [push_data lookup].
  - rewrite String.eqb_refl. reflexivity.
  - destruct (String.eqb_spec k k') as [<-|Hne]; cbn [lookup].
    + rewrite String.eqb_refl. destruct v0; reflexivity.
    + apply String.eqb_neq in Hne. rewrite Hne. exact IH.
Qed.

Lemma lookup_push_other (es : list (string * xd)) (k k' : string) (v : xd) :
  k <> k' -> lookup k (push_data es k' v) = lookup k es.
Proof.
  intros Hne. induction es as [|[k0 v0] es IH]; cbn [push_data lookup].
  - apply String.eqb_neq in Hne. rewrite Hne. reflexivity.
  - destruct (String.eqb_spec k' k0) as [<-|Hne']; cbn [lookup].
    + apply String.eqb_neq in Hne. rewrite Hne. reflexivity.
    + rewrite IH. reflexivity.
Qed.

Lemma lookup_fold_kids (t : string) (kids : list node) :
  forall es,
  lookup t (fold_left (fun es k =>
              match k with
              | Element _ local _ _ _ => push_data es local (to_xd k)
              | _ => es
              end) kids es)
  = pushes (lookup t es) (map to_xd (filter (local_is t) kids)).
Proof.
  induction kids as [|k kids IH]; intros es; [reflexivity|].
  cbn [fold_left]. rewrite IH. destruct k as [ns l attrs text ks| |];
    cbn [local_is filter]; [|reflexivity|reflexivity].
  destruct (String.eqb_spec l t) as [->|Hne].
  - rewrite lookup_push_same. reflexivity.
  - rewrite lookup_push_other by congruence. reflexivity.
Qed.

Lemma pushes_list (l : list xd) (vs : list xd) :
  exists l', pushes (Some (XList l)) vs = Some (XList l').
Proof.
  revert l. induction vs as [|v vs IH]; intros l; [exists l; reflexivity|].
  cbn [pushes fold_left push_value]. apply IH.
Qed.

Lemma pushes_two (o : option xd) (v1 v2 : xd) (vs : list xd) :
  exists l, pushes o (v1 :: v2 :: vs) = Some (XList l).
Proof.
  assert (H : exists l0, push_value (Some (push_value o v1)) v2 = XList l0)
    by (destruct (push_value o v1); eexists; reflexivity).
  destruct H as [l0 H]. destruct (pushes_list l0 vs) as [l Hl].
  exists l. unfold pushes in *. cbn [fold_left]. rewrite H. exact Hl.
Qed.

Lemma lookup_attrs (t : string) (attrs : list (string * string)) :
  String.prefix "@" t = false ->
  lookup t (map (fun kv => ("@" ++ fst kv, XStr (snd kv))) attrs) = None.
Proof.
  intros Ht. induction attrs as [|[a v] attrs IH]; [reflexivity|].
  cbn [map lookup fst snd]. rewrite IH.
  destruct (String.eqb_spec t ("@" ++ a)) as [->|]; [|reflexivity].
  rewrite prefix_self_app in Ht. discriminate.
Qed.

Lemma lookup_app_some (t : string) (es l : list (string * xd)) (x : xd) :
  lookup t es = Some x -> lookup t (es ++ l) = Some x.
Proof.
  induction es as [|[k v] es IH]; cbn [lookup app]; [discriminate|].
  destruct (String.eqb t k); [exact (fun H => H)|exact IH].
Qed.

Lemma to_xd_lookup (t : string) (ns local : string) (attrs : list (string * string))
    (text : option string) (kids : list node) :
  String.prefix "@" t = false ->
  filter (local_is t) kids <> [] ->
  exists es, to_xd (Element ns local attrs text kids) = XDict es /\
    lookup t es = pushes None (map to_xd (filter (local_is t) kids)).
Proof.
  intros Ht Hk. cbn [to_xd].
  set (es := fold_left _ kids _).
  assert (Hl : lookup t es = pushes None (map to_xd (filter (local_is t) kids)))
    by (unfold es; rewrite lookup_fold_kids, lookup_attrs by exact Ht; reflexivity).
  destruct (filter (local_is t) kids) as [|k ks] eqn:Hf; [contradiction|].
  assert (Hs : exists x, lookup t es = Some x).
  { rewrite Hl. unfold pushes. cbn [map fold_left].
    clear. generalize (push_value None (to_xd k)). induction (map to_xd ks) as [|v vs IH];
      intros x; [exists x; reflexivity|]. apply IH. }
  destruct Hs as [x Hx].
  destruct es as [|e es'] eqn:Hes; [discriminate Hx|].
  rewrite <- Hes in Hx, Hl |- *.
  destruct (String.eqb (py_strip (or_empty text)) "").
  - eexists. split; [reflexivity|exact Hl].
  - eexists. split; [reflexivity|]. rewrite (lookup_app_some _ _ _ _ Hx).
    rewrite <- Hl. symmetry. exact Hx.
Qed.

(** X25: when the [general] section of the manifest has two [title]
    elements, or one [title] with two [langstring] elements (a title in two
    languages), xmltodict makes a list of them and the reading of the
    lesson title raises [AttributeError] on the list's [.get]. *)
Theorem manifest_repeated_title (mt : node) :
  (2 <= length (filter (local_is "title") (children (general_section mt))))%nat \/
  (exists title, filter (local_is "title") (children (general_section mt)) = [title] /\
     (2 <= length (filter (local_is "langstring") (children title)))%nat) ->
  read_manifest mt = Raise AttributeError.
Proof.
  intros H. unfold read_manifest, general_dict.
  destruct (general_section mt) as [ns local attrs text kids| |] eqn:G;
    cbn [children filter length] in H;
    [|destruct H as [H|(t & H & _)]; [lia|discriminate]
     |destruct H as [H|(t & H & _)]; [lia|discriminate]].
  destruct (to_xd_lookup "title" ns local attrs text kids eq_refl) as (es & Hes & Hl).
  { destruct H as [H|(t & H & _)]; [|rewrite H; discriminate].
    intros E. rewrite E in H. cbn in H. lia. }
  rewrite Hes. cbn [py_getitem]. rewrite Hl.
  destruct H as [H|(title & Ht & Hls)].
  - destruct (filter (local_is "title") kids) as [|t1 [|t2 ts]]; cbn [length] in H; [lia|lia|].
    destruct (pushes_two None (to_xd t1) (to_xd t2) (map to_xd ts)) as [l Hp].
    cbn [map]. rewrite Hp. reflexivity.
  - rewrite Ht. cbn [map pushes fold_left push_value bind].
    destruct title as [ns' local' attrs' text' kids'| |];
      cbn [children filter length] in Hls; [|lia|lia].
    destruct (to_xd_lookup "langstring" ns' local' attrs' text' kids' eq_refl)
      as (es' & Hes' & Hl').
    { intros E. rewrite E in Hls. cbn in Hls. lia. }
    rewrite Hes'. cbn [py_dict_get]. rewrite Hl'.
    destruct (filter (local_is "langstring") kids') as [|l1 [|l2 ls]];
      cbn [length] in Hls; [lia|lia|].
    destruct (pushes_two None (to_xd l1) (to_xd l2) (map to_xd ls)) as [l Hp].
    cbn [map]. rewrite Hp. reflexivity.
Qed.

(** * Concrete inputs for the further properties *)

(** *** Requests *)

Definition course_page : response :=
  {| status_code := 200; resp_url := "https://www.microsoft.com/en-us/digital-literacy";
     resp_text := "<html></html>" |}.

Definition network_down : nat -> outcome := fun _ => ConnectionError.

(** Two timeouts, then the page. *)
Definition network_flaky : nat -> outcome :=
  fun i => if Nat.ltb i 2 then ConnectionError else Response course_page.

Lemma make_request_gives_up_witness :
  make_request network_down =
    {| rt_result := None; rt_attempts := 5; rt_sleeps := [1; 2; 3; 4; 5] |}.
Proof. apply make_request_gives_up. intros i _. reflexivity. Defined.

Lemma make_request_first_response_witness :
  make_request network_flaky =
    {| rt_result := Some course_page; rt_attempts := 3; rt_sleeps := [1; 2] |}.
Proof.
  refine (make_request_first_response network_flaky 2 course_page _ _ _).
  - unfold max_retries. lia.
  - intros i Hi. unfold network_flaky. destruct (Nat.ltb_spec i 2); [reflexivity|lia].
  - reflexivity.
Defined.

(** The page answers 404 twice, then the network is down. *)
Definition network_not_found : nat -> outcome :=
  fun i => if Nat.ltb i 2
           then Response {| status_code := 404; resp_url := "https://www.microsoft.com/404";
                            resp_text := "" |}
           else ConnectionError.

Lemma pre_run_page_unavailable_witness :
  pre_run network_not_found (fun _ => Ok ([], [])) (fun _ => true) [] fresh_chef
    = Raise AttributeError
  /\ (forall lessons zipped_videos,
        pre_run network_not_found (fun _ => Ok ([], [])) (fun _ => true) []
          {| self_lessons := Some lessons; self_zipped_videos := Some zipped_videos |}
        = Ok (download_courses (fun _ => true) [] lessons zipped_videos)).
Proof.
  apply pre_run_page_unavailable. intros i Hi. unfold network_not_found.
  destruct (Nat.ltb_spec i 2).
  - right. eexists. split; [reflexivity | discriminate].
  - left. reflexivity.
Defined.

(** *** Crawl *)

Definition lesson_items : list anchor :=
  [Some ("Computer basics", Some "https://example.org/basics-v1.zip");
   Some ("Internet", None);
   Some ("Computer basics", Some "https://example.org/basics-v2.zip")].

Definition topic_items : list anchor :=
  [Some ("Computer basics videos", Some "https://example.org/basics-videos.zip");
   Some ("Computer basics Transcript", Some "https://example.org/basics-tr.zip")].

Definition lessons_dict : list (string * option string) :=
  [("Computer basics", Some "https://example.org/basics-v2.zip"); ("Internet", None)].

Definition topics_dict : list (string * option string) :=
  [("Computer basics videos", Some "https://example.org/basics-videos.zip")].

Lemma crawl_lessons_last_href_witness :
  crawl_lessons lesson_items = Ok lessons_dict /\
  NoDup (map fst lessons_dict) /\
  forall k, dict_get k lessons_dict = last_href k lesson_items.
Proof.
  split; [reflexivity|].
  apply (crawl_lessons_last_href lesson_items lessons_dict). reflexivity.
Defined.

Lemma crawl_topics_skip_transcripts_witness :
  crawl_topics topic_items = Ok topics_dict /\
  NoDup (map fst topics_dict) /\
  forall k, dict_get k topics_dict
            = if contains "Transcript" k then None else last_href k topic_items.
Proof.
  split; [reflexivity|].
  apply (crawl_topics_skip_transcripts topic_items topics_dict). reflexivity.
Defined.

(** *** Downloads *)

(** The lessons archive of ["Internet"] is already there; a video topic
    bears the same name. *)
Definition videos_dict : list (string * option string) :=
  [("Computer basics videos", Some "https://example.org/basics-videos.zip");
   ("Internet", Some "https://example.org/internet-videos.zip")].

Definition files_after : list string :=
  ["chefdata/Computer basics videos.zip"; "chefdata/Computer basics.zip";
   "chefdata/Internet.zip"].

Lemma download_courses_complete_witness :
  download_courses (fun _ => true) ["chefdata/Internet.zip"] lessons_dict videos_dict
    = Some (files_after, [("Computer basics", Some "https://example.org/basics-v2.zip")],
            [("Computer basics videos", Some "https://example.org/basics-videos.zip")]) /\
  (forall x, In x ["chefdata/Internet.zip"] -> In x files_after) /\
  (forall k u, In (k, u) lessons_dict \/ In (k, u) videos_dict -> In (zip_name k) files_after).
Proof.
  split; [reflexivity|].
  apply (download_courses_complete (fun _ => true) ["chefdata/Internet.zip"]
           lessons_dict videos_dict files_after
           [("Computer basics", Some "https://example.org/basics-v2.zip")]
           [("Computer basics videos", Some "https://example.org/basics-videos.zip")]).
  reflexivity.
Defined.

Lemma download_courses_fetches_missing_witness :
  NoDup (map (fun p => zip_name (fst p))
           ([("Computer basics", Some "https://example.org/basics-v2.zip")]
            ++ [("Computer basics videos", Some "https://example.org/basics-videos.zip")])) /\
  (forall k u, In (k, u) ([("Computer basics", Some "https://example.org/basics-v2.zip")]
                          ++ [("Computer basics videos",
                               Some "https://example.org/basics-videos.zip")]) ->
               ~ In (zip_name k) ["chefdata/Internet.zip"]) /\
  (forall k u, In (k, u) [("Computer basics videos",
                           Some "https://example.org/basics-videos.zip")] ->
               ~ In k (map fst lessons_dict)).
Proof.
  apply (download_courses_fetches_missing (fun _ => true) ["chefdata/Internet.zip"]
           lessons_dict videos_dict files_after
           [("Computer basics", Some "https://example.org/basics-v2.zip")]
           [("Computer basics videos", Some "https://example.org/basics-videos.zip")]).
  reflexivity.
Defined.

Lemma download_courses_second_run_witness :
  download_courses (fun _ => false) files_after lessons_dict videos_dict
    = Some (files_after, [], []).
Proof.
  apply (download_courses_second_run (fun _ => true) ["chefdata/Internet.zip"]
           lessons_dict videos_dict files_after
           [("Computer basics", Some "https://example.org/basics-v2.zip")]
           [("Computer basics videos", Some "https://example.org/basics-videos.zip")]).
  reflexivity.
Defined.

(** *** Channel *)

Lemma construct_channel_pairs_by_position_witness :
  construct_channel (string * string) (fun l v => Ok (l, v))
    [("Computer basics", None); ("Internet", None)]
    [("Computer basics videos", None)] (Some []) = Raise IndexError /\
  construct_channel (string * string) (fun l v => Ok (l, v))
    [("Computer basics", None); ("Internet", None)]
    [("Internet videos", None); ("Computer basics videos", None)] (Some []) =
    Ok (Some ([("Computer basics", "Internet videos");
               ("Internet", "Computer basics videos")], [])).
Proof.
  split.
  - exact (construct_channel_pairs_by_position (fun l v => Ok (l, v)) pair
             [("Computer basics", None); ("Internet", None)]
             [("Computer basics videos", None)] (Some []) (fun l v => eq_refl)).
  - exact (construct_channel_pairs_by_position (fun l v => Ok (l, v)) pair
             [("Computer basics", None); ("Internet", None)]
             [("Internet videos", None); ("Computer basics videos", None)] (Some [])
             (fun l v => eq_refl)).
Defined.

(** *** Teacher resources *)

Definition teacher_dir : string := "chefdata/Teacher Resource files".

Definition teacher_walk : list (string * bool) :=
  [(teacher_dir ++ "/Lesson_plan.docx", true);
   (teacher_dir ++ "/Glossary.pptx", true);
   (teacher_dir ++ "/Lesson_plan.pptx", true)].

Definition teacher_walk_first : list (string * bool) :=
  [(teacher_dir ++ "/Lesson_plan.docx", true); (teacher_dir ++ "/Glossary.pptx", true)].

Definition teacher_pdfs : list string :=
  ["chefdata/teacher_files/Lesson_plan.pdf"; "chefdata/teacher_files/Glossary.pdf"].

Lemma teacher_resources_exit_without_libreoffice_witness :
  get_teacher_resources false (fun _ => true) [] teacher_walk = None.
Proof.
  apply (teacher_resources_exit_without_libreoffice (fun _ => true) [] teacher_walk).
  exists (teacher_dir ++ "/Glossary.pptx"). split; [right; left; reflexivity|intros []].
Defined.

Lemma teacher_resources_first_run_empty_witness :
  get_teacher_resources true (fun _ => true) [] teacher_walk_first = Some [].
Proof.
  apply teacher_resources_first_run_empty.
  - vm_compute. constructor; [intros [H|[]]; discriminate H|].
    constructor; [intros []|constructor].
  - intros f _ [].
Defined.

Lemma teacher_resources_rerun_witness :
  exists docs, get_teacher_resources true (fun _ => true) teacher_pdfs teacher_walk = Some docs /\
    Permutation (map doc_path docs) (map pdf_of teacher_walk) /\
    Sorted (fun a b => String.leb a b = true) (map doc_path docs).
Proof.
  apply teacher_resources_rerun.
  intros f Hf. repeat destruct Hf as [<-|Hf]; [vm_compute; tauto..|destruct Hf].
Defined.

(** *** Course outline *)

Definition metadata_full : node :=
  metadata_with
    [md "title" [] None [langstring "Computer basics"];
     md "description" [] None [langstring "Learn the basics"]].

(** A title in two languages. *)
Definition metadata_bilingual : node :=
  metadata_with
    [md "title" [] None
       [langstring "Computer basics";
        md "langstring" [("xml:lang", "es-ES")] (Some "Conceptos basicos") []];
     md "description" [] None [langstring "Learn the basics"]].

Definition quiz_objectives : list node :=
  [objective "obj1" "Mouse check" [q_ok "q1" "Which button opens a menu?"]].

Definition level0_course : node :=
  el "level0" [("name", "Using a mouse")] None
    [placeholder; group_two_videos;
     el "level1" [("name", "Knowledge check"); ("objectives", "obj1")] None []].

(** A level0 element whose first child is a comment. *)
Definition level0_comment_first : node :=
  el "level0" [("name", "Using a mouse")] None [Comment " intro "; group_two_videos].

Definition pages_root : node :=
  el "pages" [] None
    [el "level0" [("name", "Homepage")] None [placeholder; group_two_videos];
     level0_course;
     el "objectives" [] None quiz_objectives].

Definition video_walk : string -> walk_listing :=
  fun d =>
    if String.eqb d "chefdata/Basics" then
      [("chefdata/Basics", [("notes.txt", true)]);
       ("chefdata/Basics/Videos",
        [("mouse.mp4", true); ("keyboard.mp4", true); ("broken.mp4", false)])]
    else [].

Definition course_topic : topic :=
  Eval vm_compute in
    match get_course no_file video_walk (Some metadata_full) pages_root "Basics" with
    | Ok t => t
    | Raise _ => {| t_title := XNone; t_source_id := ""; t_description := XNone;
                    t_children := [] |}
    end.

Definition course_subtopics : list subtopic :=
  Eval vm_compute in
    match walk_pages no_file mp4s pages_root with
    | Ok s => s
    | Raise _ => []
    end.

Definition mouse_exercise : exercise :=
  Eval vm_compute in
    match get_exercise_node (Some "obj1") quiz_objectives "Using a mouse" with
    | Ok e => e
    | Raise _ => {| ex_source_id := ""; ex_title := ""; ex_description := "";
                    ex_questions := [] |}
    end.

Lemma walk_pages_subtopic_origin_witness :
  walk_pages no_file mp4s pages_root = Ok course_subtopics /\
  length course_subtopics = 1%nat /\
  forall st, In st course_subtopics -> exists level0,
    In level0 (findall "level0" pages_root) /\
    (2 <= length (children level0))%nat /\
    st_title st = or_empty (get "name" level0) /\
    ~ In (st_title st) discarded.
Proof.
  split; [vm_compute; reflexivity|]. split; [vm_compute; reflexivity|].
  apply (walk_pages_subtopic_origin no_file mp4s pages_root course_subtopics).
  vm_compute. reflexivity.
Defined.

Lemma get_course_videos_witness :
  get_course no_file video_walk (Some metadata_full) pages_root "Basics" = Ok course_topic /\
  forall st v, In st (t_children course_topic) -> In (CVideo v) (st_children st) ->
  In (v_path v) (list_mp4s (video_walk (video_dir "Basics"))) /\
  ends_with ".mp4" (v_path v) = true /\
  v_caption v = tttl_from_mp4 no_file (v_path v) /\
  ends_with ".ttml" (v_caption v) = true.
Proof.
  split; [vm_compute; reflexivity|].
  apply get_course_videos with (metadata := Some metadata_full) (page := pages_root).
  vm_compute. reflexivity.
Defined.

Lemma exercise_correct_among_answers_witness :
  get_exercise_node (Some "obj1") quiz_objectives "Using a mouse" = Ok mouse_exercise /\
  length (ex_questions mouse_exercise) = 1%nat /\
  forall q, In q (ex_questions mouse_exercise) -> In (q_correct q) (q_answers q).
Proof.
  split; [vm_compute; reflexivity|]. split; [vm_compute; reflexivity|].
  apply (exercise_correct_among_answers (Some "obj1") quiz_objectives "Using a mouse").
  vm_compute. reflexivity.
Defined.

Lemma exercise_unknown_objective_witness :
  get_exercise_node (Some "obj9") quiz_objectives "Using a mouse" = Raise IndexError.
Proof.
  apply exercise_unknown_objective. intros o [<-|[]]. vm_compute. intros H. discriminate H.
Defined.

Lemma level0_description_missing_witness :
  walk_level0 no_file mp4s [] level0_comment_first = Raise IndexError.
Proof.
  apply (level0_description_missing no_file mp4s [] level0_comment_first
           (Comment " intro ") [group_two_videos]).
  - vm_compute. intros [H|[H|[]]]; discriminate H.
  - reflexivity.
  - discriminate.
  - reflexivity.
Defined.

Lemma video_dir_vs_extract_dir_witness :
  video_dir "Basics" = extract_dir "Basics" /\
  video_dir "Basics v1.2" = "chefdata/Basics v1" /\
  video_dir "Basics v1.2" <> extract_dir "Basics v1.2".
Proof.
  split.
  - apply (proj1 (video_dir_vs_extract_dir "Basics" "" "" eq_refl)). reflexivity.
  - apply (proj2 (video_dir_vs_extract_dir "Basics v1.2" "Basics v1" "2" eq_refl));
      reflexivity.
Defined.

Lemma manifest_repeated_title_witness :
  read_manifest metadata_bilingual = Raise AttributeError.
Proof.
  apply manifest_repeated_title. right.
  exists (el "title" [] None
            [el "langstring" [("xml:lang", "en-US")] (Some "Computer basics") [];
             el "langstring" [("xml:lang", "es-ES")] (Some "Conceptos basicos") []]).
  split; [vm_compute; reflexivity|vm_compute; lia].
Defined.
